(** * Plan store and execution loop of the Twitter planning flow

    A shallow embedding of [app/tool/twitter_planning.py] (the plan store,
    class [TwitterPlanningTool]) and of [app/flow/twitter_planning_flow.py]
    (the execution loop, class [TwitterPlanningFlow]).

    Python objects that are mutated in place are modelled by explicit state
    passing: every method takes the object ([self]) and returns the object
    after the call together with what the call returned or raised. *)

From stdpp Require Import gmap strings list fin_maps pretty.

(** ** Exceptions and results *)

(** The exception classes that occur in the two files.  [str] is Python's
    [str(e)], the message the exception was built with. *)
Inductive Exception : Type :=
| ToolError (msg : string)
| IndexError (msg : string)
| TypeError (msg : string)
| ValueError (msg : string)
| AttributeError (msg : string)
| RuntimeError (msg : string)
| KeyError (msg : string).

Definition str (e : Exception) : string :=
  match e with
  | ToolError m | IndexError m | TypeError m
  | ValueError m | AttributeError m | RuntimeError m | KeyError m => m
  end.

(** A call either returns a value or raises. *)
Inductive Result (A : Type) : Type :=
| Ok (a : A)
| Raise (e : Exception).
Arguments Ok {A} a.
Arguments Raise {A} e.

(** Python truthiness of an [Optional[str]]: [None] and the empty string are
    falsy.  [truthy_str o] is [Some s] exactly when [o] is a non-empty [s]. *)
Definition truthy_str (o : option string) : option string :=
  match o with
  | Some s => if decide (s = "") then None else Some s
  | None => None
  end.

(** ** The plan store: [TwitterPlanningTool] *)
Module TwitterPlanningTool.

(** The values a post dictionary holds under the tool's parameter schema:
    strings ([content], [image_prompt], [scheduled_time]) and lists of
    strings ([hashtags]). *)
Inductive PostVal : Type :=
| VStr (s : string)
| VList (l : list string).

#[global] Instance PostVal_eq_dec : EqDecision PostVal.
Proof. solve_decision. Defined.

(** A post is a Python [dict]; [==] on dicts ignores insertion order, as
    equality of finite maps does. *)
Abbreviation Post := (gmap string PostVal).

(** Truthiness of [post.get(key)]. *)
Definition truthy_val (o : option PostVal) : bool :=
  match o with
  | Some (VStr s) => bool_decide (s ≠ "")
  | Some (VList l) => bool_decide (l ≠ [])
  | None => false
  end.

(** The plan dictionary built by [_create_plan]. *)
Record Plan : Type := mkPlan {
  plan_id : string;
  title : string;
  posts : list Post;
  post_statuses : list string;
  post_notes : list string;
}.

(** The tool object: the [plans] dict and the active-plan pointer. *)
Record Tool : Type := mkTool {
  plans : gmap string Plan;
  _current_plan_id : option string;
}.

Record ToolResult : Type := mkToolResult { output : string }.

(** The value passed as [posts]: a list of posts, or any other value, of
    which the code only asks whether it is a list and whether it is truthy. *)
Inductive PostsArg : Type :=
| PostList (posts : list Post)
| NotAList (truthy : bool).

(** The keyword arguments of [execute]. *)
Record Args : Type := mkArgs {
  command : string;
  arg_plan_id : option string;
  arg_title : option string;
  arg_posts : option PostsArg;
  arg_post_index : option Z;
  arg_post_status : option string;
  arg_post_notes : option string;
}.

(** The errors of the store, by the message [ToolError] is raised with. *)
Definition Required (param cmd : string) : Exception :=
  ToolError ("Parameter `" +:+ param +:+ "` is required for command: " +:+ cmd).

Definition AlreadyExists (plan_id : string) : Exception :=
  ToolError ("A plan with ID '" +:+ plan_id +:+
             "' already exists. Use 'update' to modify existing plans.").

Definition NotFound (plan_id : string) : Exception :=
  ToolError ("No plan found with ID: " +:+ plan_id).

Definition NoActivePlan : Exception :=
  ToolError "No active plan. Please specify a plan_id or set an active plan.".

Definition IndexOutOfRange (post_index : Z) (n : nat) : Exception :=
  ToolError ("Invalid post_index: " +:+ pretty post_index +:+
             ". Valid indices range from 0 to " +:+ pretty (Z.of_nat n - 1)%Z +:+ ".").

Definition InvalidStatus (post_status : string) : Exception :=
  ToolError ("Invalid post_status: " +:+ post_status +:+
             ". Valid statuses are: draft, ready, posted, failed").

Definition valid_statuses : list string := ["draft"; "ready"; "posted"; "failed"].

(** The loop of [_update_plan]: walks the new posts with their index,
    appending to [new_statuses] and [new_notes].  [old_statuses[i]] and
    [old_notes[i]] raise [IndexError] when the old lists are too short. *)
Fixpoint update_loop (old_posts : list Post) (old_statuses old_notes : list string)
    (i : nat) (posts : list Post) (new_statuses new_notes : list string)
    : Result (list string * list string) :=
  match posts with
  | [] => Ok (new_statuses, new_notes)
  | post :: rest =>
      if decide (i < length old_posts ∧ old_posts !! i = Some post) then
        match old_statuses !! i with
        | None => Raise (IndexError "list index out of range")
        | Some s =>
            match old_notes !! i with
            | None => Raise (IndexError "list index out of range")
            | Some n =>
                update_loop old_posts old_statuses old_notes (S i) rest
                  (new_statuses ++ [s]) (new_notes ++ [n])
            end
        end
      else
        update_loop old_posts old_statuses old_notes (S i) rest
          (new_statuses ++ ["draft"]) (new_notes ++ [""])
  end.

(** The posts [_format_plan] walks: [zip] stops at the shortest of the
    three lists. *)
Definition zipped_posts (plan : Plan) : list Post :=
  take (length (post_statuses plan) `min` length (post_notes plan)) (posts plan).

(** [post['content']] finds its key. *)
Definition has_content (post : Post) : Prop := is_Some (post !! "content").

Section Store.

(** The texts for humans are pure functions of the plan state; they format
    a percentage with floating point and are taken as given: [format_text]
    is the text [_format_plan] builds when no lookup in it raises,
    [list_text] the text built by the loop of [_list_plans] from the dict
    and the active pointer. *)
Variable format_text : Plan → string.
Variable list_text : gmap string Plan → option string → string.

(** [_format_plan] reads [post['content']] of every post it walks and
    raises [KeyError] at the first post without that key; every other
    field is read with [get]. *)
Definition _format_plan (plan : Plan) : Result string :=
  if decide (Forall has_content (zipped_posts plan)) then Ok (format_text plan)
  else Raise (KeyError "'content'").

(** The [ToolResult] a method returns from the state [self] it has reached:
    the text is built last, so a raise in [_format_plan] comes after the
    writes. *)
Definition reply (self : Tool) (prefix : string) (plan : Plan) : Tool * Result ToolResult :=
  match _format_plan plan with
  | Ok text => (self, Ok {| output := prefix +:+ text |})
  | Raise e => (self, Raise e)
  end.

Definition _create_plan (self : Tool) (plan_id title : option string)
    (posts : option PostsArg) : Tool * Result ToolResult :=
  match truthy_str plan_id with
  | None => (self, Raise (Required "plan_id" "create"))
  | Some pid =>
      match plans self !! pid with
      | Some _ => (self, Raise (AlreadyExists pid))
      | None =>
          match truthy_str title with
          | None => (self, Raise (Required "title" "create"))
          | Some t =>
              match posts with
              | None | Some (PostList []) | Some (NotAList _) =>
                  (self, Raise (ToolError
                     "Parameter `posts` must be a non-empty list of post objects for command: create"))
              | Some (PostList ps) =>
                  let plan := {| plan_id := pid; title := t; posts := ps;
                                 post_statuses := replicate (length ps) "draft";
                                 post_notes := replicate (length ps) "" |} in
                  reply {| plans := <[pid := plan]> (plans self);
                           _current_plan_id := Some pid |}
                        ("Twitter plan created successfully with ID: " +:+ pid +:+ "

") plan
              end
          end
      end
  end.

Definition set_title (plan : Plan) (t : string) : Plan :=
  {| plan_id := plan_id plan; title := t; posts := posts plan;
     post_statuses := post_statuses plan; post_notes := post_notes plan |}.

Definition set_posts (plan : Plan) (ps : list Post) (ss ns : list string) : Plan :=
  {| plan_id := plan_id plan; title := title plan; posts := ps;
     post_statuses := ss; post_notes := ns |}.

Definition set_statuses (plan : Plan) (ss : list string) : Plan :=
  {| plan_id := plan_id plan; title := title plan; posts := posts plan;
     post_statuses := ss; post_notes := post_notes plan |}.

Definition set_notes (plan : Plan) (ns : list string) : Plan :=
  {| plan_id := plan_id plan; title := title plan; posts := posts plan;
     post_statuses := post_statuses plan; post_notes := ns |}.

(** [self.plans[pid]] is mutated in place: the pointer is kept. *)
Definition store_plan (self : Tool) (pid : string) (plan : Plan) : Tool :=
  {| plans := <[pid := plan]> (plans self);
     _current_plan_id := _current_plan_id self |}.

Definition _update_plan (self : Tool) (plan_id title : option string)
    (posts : option PostsArg) : Tool * Result ToolResult :=
  match truthy_str plan_id with
  | None => (self, Raise (Required "plan_id" "update"))
  | Some pid =>
      match plans self !! pid with
      | None => (self, Raise (NotFound pid))
      | Some plan =>
          let plan1 := match truthy_str title with
                       | Some t => set_title plan t
                       | None => plan
                       end in
          match posts with
          | None | Some (PostList []) | Some (NotAList false) =>
              reply (store_plan self pid plan1)
                    ("Twitter plan updated successfully: " +:+ pid +:+ "

") plan1
          | Some (NotAList true) =>
              (store_plan self pid plan1,
               Raise (ToolError
                  "Parameter `posts` must be a list of post objects for command: update"))
          | Some (PostList ps) =>
              match update_loop (TwitterPlanningTool.posts plan1) (post_statuses plan1)
                      (post_notes plan1) 0 ps [] [] with
              | Raise e => (store_plan self pid plan1, Raise e)
              | Ok (new_statuses, new_notes) =>
                  let plan2 := set_posts plan1 ps new_statuses new_notes in
                  reply (store_plan self pid plan2)
                        ("Twitter plan updated successfully: " +:+ pid +:+ "

") plan2
              end
          end
      end
  end.

Definition _list_plans (self : Tool) : Tool * Result ToolResult :=
  if decide (plans self = ∅) then
    (self, Ok {| output :=
       "No Twitter plans available. Create a plan with the 'create' command." |})
  else
    (self, Ok {| output := "Available Twitter plans:
" +:+ list_text (plans self) (_current_plan_id self) |}).

(** The id an operation works on when [plan_id] may be omitted. *)
Definition resolve (self : Tool) (plan_id : option string) : Result string :=
  match truthy_str plan_id with
  | Some pid => Ok pid
  | None =>
      match truthy_str (_current_plan_id self) with
      | Some pid => Ok pid
      | None => Raise NoActivePlan
      end
  end.

Definition _get_plan (self : Tool) (plan_id : option string) : Tool * Result ToolResult :=
  match resolve self plan_id with
  | Raise e => (self, Raise e)
  | Ok pid =>
      match plans self !! pid with
      | None => (self, Raise (NotFound pid))
      | Some plan => reply self "" plan
      end
  end.

Definition _set_active_plan (self : Tool) (plan_id : option string)
    : Tool * Result ToolResult :=
  match truthy_str plan_id with
  | None => (self, Raise (Required "plan_id" "set_active"))
  | Some pid =>
      match plans self !! pid with
      | None => (self, Raise (NotFound pid))
      | Some plan =>
          reply {| plans := plans self; _current_plan_id := Some pid |}
                ("Twitter plan '" +:+ pid +:+ "' is now active.

") plan
      end
  end.

(** [lst[i] = x] for an index [0 <= i]: raises when [i] is out of range. *)
Definition list_assign (l : list string) (i : nat) (x : string) : Result (list string) :=
  if decide (i < length l) then Ok (<[i := x]> l)
  else Raise (IndexError "list assignment index out of range").

Definition _mark_post (self : Tool) (plan_id : option string) (post_index : option Z)
    (post_status post_notes : option string) : Tool * Result ToolResult :=
  match resolve self plan_id with
  | Raise e => (self, Raise e)
  | Ok pid =>
      match plans self !! pid with
      | None => (self, Raise (NotFound pid))
      | Some plan =>
          match post_index with
          | None => (self, Raise (Required "post_index" "mark_post"))
          | Some idx =>
              if decide (idx < 0 ∨ Z.of_nat (length (posts plan)) ≤ idx)%Z then
                (self, Raise (IndexOutOfRange idx (length (posts plan))))
              else
                match truthy_str post_status with
                | Some st =>
                    if decide (st ∈ valid_statuses) then
                      match list_assign (post_statuses plan) (Z.to_nat idx) st with
                      | Raise e => (self, Raise e)
                      | Ok ss =>
                          let plan1 := set_statuses plan ss in
                          match truthy_str post_notes with
                          | Some n =>
                              match list_assign (TwitterPlanningTool.post_notes plan1)
                                      (Z.to_nat idx) n with
                              | Raise e => (store_plan self pid plan1, Raise e)
                              | Ok ns =>
                                  let plan2 := set_notes plan1 ns in
                                  reply (store_plan self pid plan2)
                                   ("Post " +:+ pretty idx +:+ " updated in plan '" +:+ pid +:+ "'.

") plan2
                              end
                          | None =>
                              reply (store_plan self pid plan1)
                               ("Post " +:+ pretty idx +:+ " updated in plan '" +:+ pid +:+ "'.

") plan1
                          end
                      end
                    else (self, Raise (InvalidStatus st))
                | None =>
                    match truthy_str post_notes with
                    | Some n =>
                        match list_assign (TwitterPlanningTool.post_notes plan)
                                (Z.to_nat idx) n with
                        | Raise e => (self, Raise e)
                        | Ok ns =>
                            let plan2 := set_notes plan ns in
                            reply (store_plan self pid plan2)
                             ("Post " +:+ pretty idx +:+ " updated in plan '" +:+ pid +:+ "'.

") plan2
                        end
                    | None =>
                        reply self
                         ("Post " +:+ pretty idx +:+ " updated in plan '" +:+ pid +:+ "'.

") plan
                    end
                end
          end
      end
  end.

Definition _delete_plan (self : Tool) (plan_id : option string) : Tool * Result ToolResult :=
  match truthy_str plan_id with
  | None => (self, Raise (Required "plan_id" "delete"))
  | Some pid =>
      match plans self !! pid with
      | None => (self, Raise (NotFound pid))
      | Some _ =>
          ({| plans := delete pid (plans self);
              _current_plan_id := if decide (_current_plan_id self = Some pid)
                                  then None else _current_plan_id self |},
           Ok {| output := "Twitter plan '" +:+ pid +:+ "' has been deleted." |})
      end
  end.

(** The command dispatch of the tool. *)
Definition execute (self : Tool) (a : Args) : Tool * Result ToolResult :=
  if decide (command a = "create") then
    _create_plan self (arg_plan_id a) (arg_title a) (arg_posts a)
  else if decide (command a = "update") then
    _update_plan self (arg_plan_id a) (arg_title a) (arg_posts a)
  else if decide (command a = "list") then _list_plans self
  else if decide (command a = "get") then _get_plan self (arg_plan_id a)
  else if decide (command a = "set_active") then _set_active_plan self (arg_plan_id a)
  else if decide (command a = "mark_post") then
    _mark_post self (arg_plan_id a) (arg_post_index a) (arg_post_status a) (arg_post_notes a)
  else if decide (command a = "delete") then _delete_plan self (arg_plan_id a)
  else (self, Raise (ToolError ("Unrecognized command: " +:+ command a +:+
          ". Allowed commands are: create, update, list, get, set_active, mark_post, delete"))).

(** A freshly built tool, and the tool after a sequence of commands, each of
    which may succeed or raise. *)
Definition new_tool : Tool := {| plans := ∅; _current_plan_id := None |}.

Definition run_ops (ops : list Args) (self : Tool) : Tool :=
  foldl (λ t a, (execute t a).1) self ops.

End Store.

End TwitterPlanningTool.

(** ** The execution loop: [TwitterPlanningFlow] *)
Module TwitterPlanningFlow.
Import TwitterPlanningTool.

Inductive PostStatus : Type := DRAFT | READY | POSTED | FAILED.

Definition value (s : PostStatus) : string :=
  match s with
  | DRAFT => "draft"
  | READY => "ready"
  | POSTED => "posted"
  | FAILED => "failed"
  end.

Definition get_all_statuses : list string := value <$> [DRAFT; READY; POSTED; FAILED].
Definition get_active_statuses : list string := [value DRAFT; value READY].

(** Modelled from the spec: the enumeration [AgentState] of [app.schema] is
    not among the sources.  The loop only asks whether the executor has
    reached its finished state, [FINISHED]; the other states are those an
    agent is in before, during and after a failed run. *)
Inductive AgentState : Type := IDLE | RUNNING | FINISHED | ERROR.

#[global] Instance AgentState_eq_dec : EqDecision AgentState.
Proof. solve_decision. Defined.

(** A tool call of the drafting response: the function name and its
    arguments, [None] when the argument string is not valid JSON. *)
Record ToolCall : Type := mkToolCall {
  function_name : string;
  arguments : option Args;
}.

(** What [_create_initial_plan] ends with: it returns, raises, or leaves the
    interpreter through [exit()], which no [except Exception] catches. *)
Inductive InitOutcome : Type :=
| InitDone
| InitRaise (e : Exception)
| InitExit.

(** What [execute] ends with: the returned text, or the process exit. *)
Inductive Outcome : Type :=
| Returned (text : string)
| ProcessExit.

(** The scan of [_get_current_post_info]: the first index whose status is
    active, a missing status counting as draft. *)
Fixpoint find_active (post_statuses : list string) (i : nat) (posts : list Post)
    : option (nat * Post) :=
  match posts with
  | [] => None
  | post :: rest =>
      let status := match post_statuses !! i with
                    | None => value DRAFT
                    | Some s => s
                    end in
      if decide (status ∈ get_active_statuses) then Some (i, post)
      else find_active post_statuses (S i) rest
  end.

(** [while len(l) < n: l.append(x)]. *)
Definition pad (l : list string) (n : nat) (x : string) : list string :=
  l ++ replicate (n - length l) x.

(** The in-memory correction of [_get_current_post_info]. *)
Definition fix_ready (post_statuses : list string) (i : nat) : list string :=
  if decide (i < length post_statuses) then <[i := value READY]> post_statuses
  else pad post_statuses i (value DRAFT) ++ [value READY].

(** The in-memory correction of [_mark_post_posted]. *)
Definition fix_posted (post_statuses : list string) (i : nat) : list string :=
  <[i := value POSTED]> (pad post_statuses (S i) (value DRAFT)).

Definition index_text (o : option nat) : string :=
  match o with
  | Some i => pretty i
  | None => "None"
  end.

Definition mark_args (plan_id : string) (post_index : option nat)
    (post_status : PostStatus) (post_notes : option string) : Args :=
  {| command := "mark_post"; arg_plan_id := Some plan_id; arg_title := None;
     arg_posts := None; arg_post_index := Z.of_nat <$> post_index;
     arg_post_status := Some (value post_status); arg_post_notes := post_notes |}.

Definition get_args (plan_id : string) : Args :=
  {| command := "get"; arg_plan_id := Some plan_id; arg_title := None;
     arg_posts := None; arg_post_index := None;
     arg_post_status := None; arg_post_notes := None |}.

Definition default_plan_args (plan_id request : string) : Args :=
  {| command := "create"; arg_plan_id := Some plan_id;
     arg_title := Some ("Twitter Plan for: " +:+ String.substring 0 50 request +:+
                        (if decide (50 < String.length request) then "..." else ""));
     arg_posts := Some (PostList
                   [ {[ "content" := VStr ("Announcing: " +:+
                                String.substring 0 100 request +:+
                                (if decide (100 < String.length request) then "..." else ""));
                            "hashtags" := VList ["#Announcement"; "#News"];
                            "image_prompt" := VStr "";
                            "scheduled_time" := VStr "" ]} ]);
     arg_post_index := None; arg_post_status := None; arg_post_notes := None |}.

Definition set_plan_id (a : Args) (plan_id : string) : Args :=
  {| command := command a; arg_plan_id := Some plan_id; arg_title := arg_title a;
     arg_posts := arg_posts a; arg_post_index := arg_post_index a;
     arg_post_status := arg_post_status a; arg_post_notes := arg_post_notes a |}.

Section Flow.

(** The collaborators.  An agent is an object with a state of its own:
    [agent_run a prompt] is [a.run(prompt)], giving the agent afterwards and
    the text it returned or the exception it raised; [agent_state] reads
    [a.state].  The language model likewise: [llm_ask] is [llm.ask] with
    the system and the user message, [llm_ask_tool] is [llm.ask_tool],
    whose response is read through its tool calls only. *)
Context {Agent LLM : Type}.
Variable agent_run : Agent → string → Agent * Result string.
Variable agent_state : Agent → AgentState.
Variable llm_ask : LLM → string → string → LLM * Result string.
Variable llm_ask_tool : LLM → string → string → LLM * Result (list ToolCall).

(** The renderings: those of the tool, the text of
    [_generate_plan_text_from_storage] from the plan id and the padded plan,
    and the prompt of [_execute_post] from the plan text, the current index
    and the post. *)
Variable format_text : Plan → string.
Variable list_text : gmap string Plan → option string → string.
Variable storage_text : string → Plan → string.
Variable post_prompt_text : string → option nat → Post → string.

(** The flow object.  Agents are referred to by their key in [agents], so
    that the primary agent and an executor may be one object. *)
Record Flow : Type := mkFlow {
  agents : gmap string Agent;
  primary_agent_key : option string;
  llm : LLM;
  twitter_planning_tool : Tool;
  executor_keys : list string;
  active_plan_id : string;
  current_post_index : option nat;
}.

(** Modelled from the spec: the base class [BaseFlow], which declares
    [agents] and the property [primary_agent], is not among the sources.
    The flow has one designated primary executor, which [execute] requires
    to exist before the loop starts; it is the agent stored under
    [primary_agent_key], [None] when there is none. *)
Definition primary_agent (self : Flow) : option string :=
  match primary_agent_key self with
  | Some k => if decide (is_Some (agents self !! k)) then Some k else None
  | None => None
  end.

Definition with_tool (self : Flow) (t : Tool) : Flow :=
  {| agents := agents self; primary_agent_key := primary_agent_key self;
     llm := llm self; twitter_planning_tool := t;
     executor_keys := executor_keys self; active_plan_id := active_plan_id self;
     current_post_index := current_post_index self |}.

Definition with_agents (self : Flow) (ag : gmap string Agent) : Flow :=
  {| agents := ag; primary_agent_key := primary_agent_key self;
     llm := llm self; twitter_planning_tool := twitter_planning_tool self;
     executor_keys := executor_keys self; active_plan_id := active_plan_id self;
     current_post_index := current_post_index self |}.

Definition with_llm (self : Flow) (l : LLM) : Flow :=
  {| agents := agents self; primary_agent_key := primary_agent_key self;
     llm := l; twitter_planning_tool := twitter_planning_tool self;
     executor_keys := executor_keys self; active_plan_id := active_plan_id self;
     current_post_index := current_post_index self |}.

Definition with_index (self : Flow) (i : option nat) : Flow :=
  {| agents := agents self; primary_agent_key := primary_agent_key self;
     llm := llm self; twitter_planning_tool := twitter_planning_tool self;
     executor_keys := executor_keys self; active_plan_id := active_plan_id self;
     current_post_index := i |}.

Definition tool_execute (self : Flow) (a : Args) : Tool * Result ToolResult :=
  TwitterPlanningTool.execute format_text list_text (twitter_planning_tool self) a.

(** [a.run(prompt)] on the agent under key [executor]; on [None] the
    attribute lookup raises. *)
Definition run_agent (self : Flow) (executor : option string) (prompt : string)
    : Flow * Result string :=
  match executor with
  | None => (self, Raise (AttributeError "'NoneType' object has no attribute 'run'"))
  | Some k =>
      match agents self !! k with
      | None => (self, Raise (AttributeError "'NoneType' object has no attribute 'run'"))
      | Some a =>
          let '(a', r) := agent_run a prompt in
          (with_agents self (<[k := a']> (agents self)), r)
      end
  end.

Fixpoint first_executor (ag : gmap string Agent) (keys : list string) : option string :=
  match keys with
  | [] => None
  | key :: rest =>
      if decide (is_Some (ag !! key)) then Some key else first_executor ag rest
  end.

Definition get_executor (self : Flow) (post_type : option string) : option string :=
  let fallback := match first_executor (agents self) (executor_keys self) with
                  | Some key => Some key
                  | None => primary_agent self
                  end in
  match truthy_str post_type with
  | Some t => if decide (is_Some (agents self !! t)) then Some t else fallback
  | None => fallback
  end.

(** The type the loop reads from [post_info.get("type")]. *)
Definition post_type_of (post_info : Post) : option string :=
  match post_info !! "type" with
  | Some (VStr s) => Some s
  | _ => None
  end.

(** Returns the flow after the call and the pair (index, post_info), [None]
    standing for [(None, None)].  Nothing in the outer [try] can raise, its
    handler has no counterpart here.  The list [post_statuses] read before
    the call of the tool is the list object of the stored plan, so the
    correction after a failed call works on the plan as the call left it. *)
Definition _get_current_post_info (self : Flow) : Flow * option (nat * Post) :=
  if decide (active_plan_id self = "") then (self, None)
  else
    match plans (twitter_planning_tool self) !! active_plan_id self with
    | None => (self, None)
    | Some plan_data =>
        match find_active (post_statuses plan_data) 0 (posts plan_data) with
        | None => (self, None)
        | Some (i, post) =>
            let post_info :=
              <["type" := VStr (if truthy_val (post !! "image_prompt")
                                then "image" else "text")]> post in
            match tool_execute self (mark_args (active_plan_id self) (Some i) READY None) with
            | (tool1, Ok _) => (with_tool self tool1, Some (i, post_info))
            | (tool1, Raise e) =>
                match plans tool1 !! active_plan_id self with
                | None => (with_tool self tool1, Some (i, post_info))
                | Some plan_data1 =>
                    (with_tool self
                       (store_plan tool1 (active_plan_id self)
                          (set_statuses plan_data1 (fix_ready (post_statuses plan_data1) i))),
                     Some (i, post_info))
                end
            end
        end
    end.

Definition _generate_plan_text_from_storage (self : Flow) : Flow * string :=
  match plans (twitter_planning_tool self) !! active_plan_id self with
  | None =>
      (self, "Error: Twitter plan with ID " +:+ active_plan_id self +:+ " not found")
  | Some plan_data =>
      let n := length (posts plan_data) in
      let plan_data1 :=
        set_notes (set_statuses plan_data (pad (post_statuses plan_data) n (value DRAFT)))
                  (pad (post_notes plan_data) n "") in
      (with_tool self (store_plan (twitter_planning_tool self) (active_plan_id self) plan_data1),
       storage_text (active_plan_id self) plan_data1)
  end.

Definition _get_plan_text (self : Flow) : Flow * string :=
  match tool_execute self (get_args (active_plan_id self)) with
  | (tool1, Ok result) => (with_tool self tool1, output result)
  | (tool1, Raise e) => _generate_plan_text_from_storage (with_tool self tool1)
  end.

(** Never raises: the call of the tool is inside [try], and the handler
    pads the list before it assigns. *)
Definition _mark_post_posted (self : Flow) : Flow :=
  match current_post_index self with
  | None => self
  | Some idx =>
      match tool_execute self (mark_args (active_plan_id self) (Some idx) POSTED None) with
      | (tool1, Ok _) => with_tool self tool1
      | (tool1, Raise e) =>
          match plans tool1 !! active_plan_id self with
          | None => with_tool self tool1
          | Some plan_data =>
              with_tool self
                (store_plan tool1 (active_plan_id self)
                   (set_statuses plan_data (fix_posted (post_statuses plan_data) idx)))
          end
      end
  end.

Definition _execute_post (self : Flow) (executor : option string) (post_info : Post)
    : Flow * Result string :=
  let '(self1, plan_status) := _get_plan_text self in
  let post_prompt := post_prompt_text plan_status (current_post_index self1) post_info in
  match run_agent self1 executor post_prompt with
  | (self2, Ok post_result) => (_mark_post_posted self2, Ok post_result)
  | (self2, Raise e) =>
      match tool_execute self2
              (mark_args (active_plan_id self2) (current_post_index self2) FAILED
                 (Some ("Error: " +:+ str e))) with
      | (tool3, Raise e') => (with_tool self2 tool3, Raise e')
      | (tool3, Ok _) =>
          (with_tool self2 tool3,
           Ok ("Error executing post " +:+ index_text (current_post_index self2) +:+
               ": " +:+ str e))
      end
  end.

Definition summary_system_message : string :=
  "You are a Twitter campaign assistant. Your task is to summarize the completed Twitter campaign plan.".

Definition summary_user_message (plan_text : string) : string :=
  "The Twitter campaign plan has been completed. Here is the final plan status:

" +:+ plan_text +:+ "

Please provide a summary of what was accomplished and any final thoughts or statistics about the campaign.".

Definition summary_prompt (plan_text : string) : string :=
  "
                The Twitter campaign plan has been completed. Here is the final plan status:

                " +:+ plan_text +:+ "

                Please provide a summary of what was accomplished and any final thoughts or statistics about the campaign.
                ".

Definition _finalize_plan (self : Flow) : Flow * string :=
  let '(self1, plan_text) := _get_plan_text self in
  match llm_ask (llm self1) summary_system_message (summary_user_message plan_text) with
  | (llm1, Ok response) =>
      (with_llm self1 llm1, "Twitter campaign plan completed:

" +:+ response)
  | (llm1, Raise e) =>
      match run_agent (with_llm self1 llm1) (primary_agent self1) (summary_prompt plan_text) with
      | (self2, Ok summary) => (self2, "Twitter campaign plan completed:

" +:+ summary)
      | (self2, Raise e2) =>
          (self2, "Twitter campaign plan completed. Error generating summary.")
      end
  end.

Definition planning_system_message : string :=
  "You are a Twitter campaign planning assistant. Create a concise, actionable Twitter posting plan. " +:+
  "Each post should have clear content, relevant hashtags, and image prompts where appropriate. " +:+
  "Focus on engagement and message clarity.".

Definition planning_user_message (request : string) : string :=
  "Create a Twitter campaign plan with specific posts to accomplish: " +:+ request.

(** The loop over [response.tool_calls]: the first call of the planning tool
    whose arguments parse is executed under the flow's plan id; when the tool
    returns, [exit()] follows.  [None] when the loop runs to its end. *)
Fixpoint process_tool_calls (self : Flow) (calls : list ToolCall)
    : option (Flow * InitOutcome) :=
  match calls with
  | [] => None
  | tool_call :: rest =>
      if decide (function_name tool_call = "twitter_planning") then
        match arguments tool_call with
        | None => process_tool_calls self rest
        | Some args =>
            match tool_execute self (set_plan_id args (active_plan_id self)) with
            | (tool1, Raise e) => Some (with_tool self tool1, InitRaise e)
            | (tool1, Ok _) => Some (with_tool self tool1, InitExit)
            end
        end
      else process_tool_calls self rest
  end.

Definition _create_initial_plan (self : Flow) (request : string) : Flow * InitOutcome :=
  match llm_ask_tool (llm self) planning_system_message (planning_user_message request) with
  | (llm1, Raise e) => (with_llm self llm1, InitRaise e)
  | (llm1, Ok tool_calls) =>
      let self1 := with_llm self llm1 in
      match process_tool_calls self1 tool_calls with
      | Some r => r
      | None =>
          match tool_execute self1 (default_plan_args (active_plan_id self1) request) with
          | (tool1, Raise e) => (with_tool self1 tool1, InitRaise e)
          | (tool1, Ok _) => (with_tool self1 tool1, InitDone)
          end
      end
  end.

(** [hasattr(executor, "state") and executor.state == AgentState.FINISHED];
    [None] has no such attribute. *)
Definition executor_finished (self : Flow) (executor : option string) : bool :=
  match executor with
  | Some k =>
      match agents self !! k with
      | Some a => bool_decide (agent_state a = FINISHED)
      | None => false
      end
  | None => false
  end.

(** The [while True] loop of [execute]; [fuel] bounds the number of
    iterations, [None] is the loop still running when the fuel is spent.
    An exception leaves the loop for the handler of [execute]. *)
Fixpoint execute_loop (fuel : nat) (self : Flow) (result : string)
    : option (Flow * Result string) :=
  match fuel with
  | O => None
  | S fuel' =>
      match _get_current_post_info self with
      | (self1, None) =>
          let '(self2, summary) := _finalize_plan (with_index self1 None) in
          Some (self2, Ok (result +:+ summary))
      | (self1, Some (i, post_info)) =>
          let self1 := with_index self1 (Some i) in
          let executor := get_executor self1 (post_type_of post_info) in
          match _execute_post self1 executor post_info with
          | (self2, Raise e) => Some (self2, Raise e)
          | (self2, Ok post_result) =>
              let result1 := result +:+ post_result +:+ "
" in
              if executor_finished self2 executor then Some (self2, Ok result1)
              else execute_loop fuel' self2 result1
          end
      end
  end.

Definition run_loop (fuel : nat) (self : Flow) : option (Flow * Outcome) :=
  match execute_loop fuel self "" with
  | None => None
  | Some (self1, Ok result) => Some (self1, Returned result)
  | Some (self1, Raise e) => Some (self1, Returned ("Execution failed: " +:+ str e))
  end.

Definition execute (fuel : nat) (self : Flow) (input_text : string)
    : option (Flow * Outcome) :=
  match primary_agent self with
  | None => Some (self, Returned ("Execution failed: " +:+ "No primary agent available"))
  | Some _ =>
      if decide (input_text = "") then run_loop fuel self
      else
        match _create_initial_plan self input_text with
        | (self1, InitExit) => Some (self1, ProcessExit)
        | (self1, InitRaise e) => Some (self1, Returned ("Execution failed: " +:+ str e))
        | (self1, InitDone) =>
            match plans (twitter_planning_tool self1) !! active_plan_id self1 with
            | None => Some (self1, Returned ("Failed to create Twitter plan for: " +:+ input_text))
            | Some _ => run_loop fuel self1
            end
        end
  end.

End Flow.

End TwitterPlanningFlow.

(** ** The posting tool: [Twitter] *)
Module Twitter.

(** The session object of [app/tool/twitter.py]. *)
Record _TwitterSession : Type := mkSession {
  _started : bool;
  _api_key : string;
  _api_secret : string;
  _access_token : string;
  _access_token_secret : string;
}.

(** [_TwitterSession()]. *)
Definition new_session : _TwitterSession :=
  {| _started := false; _api_key := ""; _api_secret := "";
     _access_token := ""; _access_token_secret := "" |}.

Definition set_started (self : _TwitterSession) (b : bool) : _TwitterSession :=
  {| _started := b; _api_key := _api_key self; _api_secret := _api_secret self;
     _access_token := _access_token self;
     _access_token_secret := _access_token_secret self |}.

(** [start]: the simulated initialisation only waits, so the handler that
    turns a failure into a [ToolError] is never entered. *)
Definition start (self : _TwitterSession) : _TwitterSession :=
  if _started self then self else set_started self true.

Definition stop (self : _TwitterSession) : _TwitterSession * Result unit :=
  if _started self then (set_started self false, Ok ())
  else (self, Raise (ToolError "Session has not started.")).

(** The dictionary [post_tweet] returns. *)
Record Tweet : Type := mkTweet {
  tweet_id : string;
  tweet_url : string;
  text : string;
  has_media : bool;
}.

Definition post_tweet (self : _TwitterSession) (text : string) (media_path : option string)
    : Result Tweet :=
  if _started self then
    let tweet_id := "1234567890123456789" in
    Ok {| tweet_id := tweet_id;
          tweet_url := "https://twitter.com/username/status/" +:+ tweet_id;
          text := text;
          has_media := bool_decide (media_path ≠ None) |}
  else Raise (ToolError "Session has not started.").

(** The two fields of [ToolResult] the tool fills. *)
Record ToolResult : Type := mkToolResult {
  output : option string;
  system : option string;
}.

(** The tool object. *)
Record Twitter : Type := mkTwitter { _session : option _TwitterSession }.

Definition new_twitter : Twitter := {| _session := None |}.

Definition execute (self : Twitter) (text : string) (media_path : option string)
    (restart : bool) : Twitter * Result ToolResult :=
  if restart then
    match (match _session self with
           | Some session =>
               match stop session with
               | (session1, Ok _) => Ok ()
               | (session1, Raise e) => Raise e
               end
           | None => Ok ()
           end) with
    | Raise e => (self, Raise e)
    | Ok _ =>
        ({| _session := Some (start new_session) |},
         Ok {| output := None; system := Some "Twitter tool has been restarted." |})
    end
  else
    let session := match _session self with
                   | Some session => session
                   | None => start new_session
                   end in
    let self1 := {| _session := Some session |} in
    if decide (text = "") then (self1, Raise (ToolError "Tweet text cannot be empty."))
    else
      match post_tweet session text media_path with
      | Raise e => (self1, Raise e)
      | Ok result =>
          (self1,
           Ok {| output := Some ("Tweet posted successfully!
Tweet ID: " +:+ tweet_id result +:+ "
URL: " +:+ tweet_url result +:+
                   (if has_media result then "
Media was included with this tweet." else ""));
                 system := None |})
      end.

(** One call of [execute]: the text, the media path and the restart flag. *)
Definition Call : Type := string * option string * bool.

Definition run_calls (calls : list Call) (self : Twitter) : Twitter :=
  foldl (λ tw '(text, media_path, restart), (execute tw text media_path restart).1)
        self calls.

End Twitter.

(** * Properties of the plan store *)

Import TwitterPlanningTool.

(** The three lists of a plan are index-aligned. *)
Definition plan_wf (plan : Plan) : Prop :=
  length (post_statuses plan) = length (posts plan) ∧
  length (post_notes plan) = length (posts plan).

(** Every stored plan is aligned, and no plan is stored under the empty id. *)
Definition tool_wf (t : Tool) : Prop :=
  map_Forall (λ _ plan, plan_wf plan) (plans t) ∧ plans t !! "" = None.

(** What [update_loop] appends for the post at index [i]: the old entry when
    the old post at [i] is the same post, the default otherwise. *)
Definition merge_at (old_posts : list Post) (old : list string) (dflt : string)
    (i : nat) (post : Post) : string :=
  if decide (old_posts !! i = Some post) then default dflt (old !! i) else dflt.

(** The plan after the title step of [_update_plan]. *)
Definition retitle (plan : Plan) (title : option string) : Plan :=
  match truthy_str title with
  | Some t => set_title plan t
  | None => plan
  end.

(** The plan [_update_plan] stores for a non-empty list of new posts when
    the old lists are aligned. *)
Definition merged (plan : Plan) (new_posts : list Post) : Plan :=
  set_posts plan new_posts
    (imap (merge_at (posts plan) (post_statuses plan) "draft") new_posts)
    (imap (merge_at (posts plan) (post_notes plan) "") new_posts).

(** How [_mark_post] may change a plan: the lists it was given no value for
    stay as they are, the posts stay, and a note is only ever overwritten
    by a non-empty note. *)
Definition mark_rel (status notes : option string) (plan plan' : Plan) : Prop :=
  posts plan' = posts plan ∧
  (truthy_str notes = None → post_notes plan' = post_notes plan) ∧
  (truthy_str status = None → post_statuses plan' = post_statuses plan) ∧
  (∀ j n, post_notes plan !! j = Some n → n ≠ "" →
          ∃ n', post_notes plan' !! j = Some n' ∧ n' ≠ "").

(** The post with its derived type, as [_get_current_post_info] returns it. *)
Definition info_of (post : Post) : Post :=
  <["type" := VStr (if truthy_val (post !! "image_prompt") then "image" else "text")]> post.

(** The plan after a successful [mark_post] at index [k]. *)
Definition marked (plan : Plan) (k : nat) (st : string) (notes : option string) : Plan :=
  let plan1 := set_statuses plan (<[k := st]> (post_statuses plan)) in
  match truthy_str notes with
  | Some n => set_notes plan1 (<[k := n]> (post_notes plan1))
  | None => plan1
  end.

(** The status the scan of the loop sees at index [j]. *)
Definition status_at (post_statuses : list string) (j : nat) : string :=
  default "draft" (post_statuses !! j).

(** Every post of the plan has a content key, so [_format_plan] renders
    the plan without raising. *)
Definition renderable (plan : Plan) : Prop := Forall has_content (posts plan).

#[global] Instance renderable_dec (plan : Plan) : Decision (renderable plan).
Proof. unfold renderable, has_content. apply _. Defined.

(** What a run leaves of the statuses [ss] in [ss']: an entry that was not
    active is as before, an entry that was active is posted or failed. *)
Definition settled (n : nat) (ss ss' : list string) : Prop :=
  (∀ j, j < n → status_at ss j ∉ TwitterPlanningFlow.get_active_statuses →
        ss' !! j = ss !! j) ∧
  (∀ j, j < n → status_at ss j ∈ TwitterPlanningFlow.get_active_statuses →
        ss' !! j = Some (TwitterPlanningFlow.value TwitterPlanningFlow.POSTED) ∨
        ss' !! j = Some (TwitterPlanningFlow.value TwitterPlanningFlow.FAILED)).

(** What every plan of a store built by commands satisfies besides the
    alignment: it is stored under its own id, it has a title and at least
    one post, and its statuses are among the four the tool accepts. *)
Definition plan_ok (key : string) (plan : Plan) : Prop :=
  plan_id plan = key ∧ title plan ≠ "" ∧ posts plan ≠ [] ∧
  Forall (λ s, s ∈ valid_statuses) (post_statuses plan).

(** The active pointer, when set, names a stored plan. *)
Definition tool_ok (t : Tool) : Prop :=
  map_Forall plan_ok (plans t) ∧
  ∀ pid, _current_plan_id t = Some pid → is_Some (plans t !! pid).

(** The number of posts the loop still has to run. *)
Definition active_count (post_statuses : list string) : nat :=
  length (filter (λ s, s ∈ TwitterPlanningFlow.get_active_statuses) post_statuses).

(** No call of the response is a call of the planning tool whose arguments
    parse. *)
Definition no_planning_call (calls : list TwitterPlanningFlow.ToolCall) : Prop :=
  Forall (λ c, TwitterPlanningFlow.function_name c ≠ "twitter_planning" ∨
               TwitterPlanningFlow.arguments c = None) calls.

(** The session of the posting tool, when there is one, has been started. *)
Definition session_started (tw : Twitter.Twitter) : Prop :=
  ∀ s, Twitter._session tw = Some s → Twitter._started s = true.

(** The text [Twitter.execute] returns for a posted tweet. *)
Definition posted_text (media_path : option string) : string :=
  "Tweet posted successfully!
Tweet ID: 1234567890123456789
URL: https://twitter.com/username/status/1234567890123456789" +:+
  (if bool_decide (media_path ≠ None) then "
Media was included with this tweet." else "").

(** Concrete collaborators and plans on which the definitions are run. *)
Module Demo.
Import TwitterPlanningFlow.

Definition plain_format (plan : Plan) : string := title plan.
Definition plain_list (ps : gmap string Plan) (cur : option string) : string := "".
Definition plain_storage (pid : string) (plan : Plan) : string := title plan.
Definition plain_prompt (plan_status : string) (i : option nat) (post : Post) : string :=
  plan_status.

(** An agent that raises when [fails] is set and is in state [FINISHED] after
    a run when [finishes] is set. *)
Record DemoAgent : Type := mkDemoAgent {
  fails : bool;
  finishes : bool;
  state : AgentState;
}.

Definition demo_run (a : DemoAgent) (prompt : string) : DemoAgent * Result string :=
  ({| fails := fails a; finishes := finishes a;
      state := if finishes a then FINISHED else state a |},
   if fails a then Raise (RuntimeError "boom") else Ok "posted").

(** A language model that counts the calls made to it. *)
Definition demo_ask (n : nat) (system user : string) : nat * Result string :=
  (S n, Ok "summary").
Definition demo_ask_tool (n : nat) (system user : string) : nat * Result (list ToolCall) :=
  (S n, Ok []).

Definition worker : DemoAgent := {| fails := false; finishes := false; state := IDLE |}.
Definition finisher : DemoAgent := {| fails := false; finishes := true; state := IDLE |}.
Definition breaker : DemoAgent := {| fails := true; finishes := false; state := IDLE |}.
Definition last_breaker : DemoAgent := {| fails := true; finishes := true; state := IDLE |}.

Definition demo_post (text : string) : Post := {[ "content" := VStr text ]}.

Definition demo_create : Args :=
  {| command := "create"; arg_plan_id := Some "p"; arg_title := Some "Launch";
     arg_posts := Some (PostList [demo_post "one"; demo_post "two"]);
     arg_post_index := None; arg_post_status := None; arg_post_notes := None |}.

Definition demo_note : Args :=
  {| command := "mark_post"; arg_plan_id := Some "p"; arg_title := None;
     arg_posts := None; arg_post_index := Some 0%Z;
     arg_post_status := Some "posted"; arg_post_notes := Some "sent" |}.

Definition demo_plan : Plan :=
  {| plan_id := "p"; title := "Launch"; posts := [demo_post "one"; demo_post "two"];
     post_statuses := ["draft"; "draft"]; post_notes := [""; ""] |}.

Definition noted_plan : Plan :=
  {| plan_id := "p"; title := "Launch"; posts := [demo_post "one"; demo_post "two"];
     post_statuses := ["posted"; "draft"]; post_notes := ["sent"; ""] |}.

(** A plan whose notes are shorter than its posts. *)
Definition short_plan : Plan :=
  {| plan_id := "p"; title := "Launch"; posts := [demo_post "one"];
     post_statuses := ["draft"]; post_notes := [] |}.

Definition demo_tool : Tool := run_ops plain_format plain_list [demo_create] new_tool.
Definition noted_tool : Tool :=
  run_ops plain_format plain_list [demo_create; demo_note] new_tool.
Definition short_tool : Tool :=
  {| plans := {[ "p" := short_plan ]}; _current_plan_id := Some "p" |}.

Abbreviation DemoFlow := (@Flow DemoAgent nat).

Definition demo_flow (t : Tool) (a : DemoAgent) : DemoFlow :=
  {| agents := {[ "manus" := a ]}; primary_agent_key := Some "manus"; llm := 0;
     twitter_planning_tool := t; executor_keys := ["manus"]; active_plan_id := "p";
     current_post_index := None |}.

Definition demo_execute : nat → DemoFlow → string → option (DemoFlow * Outcome) :=
  execute demo_run state demo_ask demo_ask_tool plain_format plain_list
    plain_storage plain_prompt.

Definition demo_loop : nat → DemoFlow → string → option (DemoFlow * Result string) :=
  execute_loop demo_run state demo_ask plain_format plain_list plain_storage plain_prompt.

(** What a run leaves behind: the returned text, the statuses and notes of
    plan [p], and the number of calls made to the language model. *)
Definition report (r : DemoFlow * Outcome)
    : Outcome * option (list string) * option (list string) * nat :=
  (r.2,
   post_statuses <$> plans (twitter_planning_tool r.1) !! "p",
   post_notes <$> plans (twitter_planning_tool r.1) !! "p",
   llm r.1).

(** More plans: one with every post posted, one with no status slot. *)
Definition done_plan : Plan :=
  {| plan_id := "p"; title := "Launch"; posts := [demo_post "one"; demo_post "two"];
     post_statuses := ["posted"; "failed"]; post_notes := ["sent"; "Error: boom"] |}.

Definition unmarked_plan : Plan :=
  {| plan_id := "p"; title := "Launch"; posts := [demo_post "one"];
     post_statuses := []; post_notes := [""] |}.

Definition done_tool : Tool :=
  {| plans := {[ "p" := done_plan ]}; _current_plan_id := Some "p" |}.
Definition unmarked_tool : Tool :=
  {| plans := {[ "p" := unmarked_plan ]}; _current_plan_id := Some "p" |}.

(** A language model that answers with a call of the planning tool. *)
Definition calling_ask_tool (n : nat) (system user : string)
    : nat * Result (list ToolCall) :=
  (S n, Ok [ {| function_name := "search"; arguments := None |};
             {| function_name := "twitter_planning"; arguments := Some demo_create |} ]).

Definition calling_execute : nat → DemoFlow → string → option (DemoFlow * Outcome) :=
  execute demo_run state demo_ask calling_ask_tool plain_format plain_list
    plain_storage plain_prompt.

Definition demo_initial_plan : DemoFlow → string → DemoFlow * InitOutcome :=
  _create_initial_plan demo_ask_tool plain_format plain_list.

(** A post with no content key, and the store after a [create] with it. *)
Definition bare_post : Post := {[ "hashtags" := VList ["#a"] ]}.

Definition bare_create : Args :=
  {| command := "create"; arg_plan_id := Some "p"; arg_title := Some "Launch";
     arg_posts := Some (PostList [bare_post]);
     arg_post_index := None; arg_post_status := None; arg_post_notes := None |}.

Definition bare_plan : Plan :=
  {| plan_id := "p"; title := "Launch"; posts := [bare_post];
     post_statuses := ["draft"]; post_notes := [""] |}.

Definition bare_tool : Tool := run_ops plain_format plain_list [bare_create] new_tool.

End Demo.

Lemma reply_state (format_text : Plan → string) (t : Tool) (prefix : string) (plan : Plan) :
  (reply format_text t prefix plan).1 = t.
Proof. unfold reply. by destruct (_format_plan format_text plan). Qed.

Lemma format_plan_renderable (format_text : Plan → string) (plan : Plan) :
  renderable plan → _format_plan format_text plan = Ok (format_text plan).
Proof.
  intros Hr. unfold _format_plan. rewrite decide_True; [done|].
  unfold zipped_posts. by apply Forall_take.
Qed.

Lemma reply_renderable (format_text : Plan → string) (t : Tool) (prefix : string)
    (plan : Plan) :
  renderable plan →
  reply format_text t prefix plan = (t, Ok {| output := prefix +:+ format_text plan |}).
Proof. intros Hr. unfold reply. by rewrite format_plan_renderable. Qed.

Lemma truthy_str_Some (s : string) : s ≠ "" → truthy_str (Some s) = Some s.
Proof. intros Hs. unfold truthy_str. by destruct (decide (s = "")). Qed.

Lemma truthy_str_inv (o : option string) (s : string) :
  truthy_str o = Some s → o = Some s ∧ s ≠ "".
Proof.
  destruct o as [x|]; simpl; [|done].
  destruct (decide (x = "")); [done|]. intros [= ->]. done.
Qed.

Lemma truthy_str_empty : truthy_str (Some "") = None.
Proof. reflexivity. Qed.

Lemma update_loop_aligned (old_posts : list Post) (old_statuses old_notes : list string) :
  length old_statuses = length old_posts →
  length old_notes = length old_posts →
  ∀ (posts : list Post) (i : nat) (new_statuses new_notes : list string),
    update_loop old_posts old_statuses old_notes i posts new_statuses new_notes =
    Ok (new_statuses ++ imap (λ j, merge_at old_posts old_statuses "draft" (i + j)) posts,
        new_notes ++ imap (λ j, merge_at old_posts old_notes "" (i + j)) posts).
Proof.
  intros Hs Hn posts. induction posts as [|post rest IH]; intros i ss ns; simpl.
  - by rewrite !app_nil_r.
  - unfold merge_at at 1 3. rewrite Nat.add_0_r.
    assert (Hshift : ∀ (old : list string) d,
      imap ((λ j, merge_at old_posts old d (i + j)) ∘ S) rest =
      imap (λ j, merge_at old_posts old d (S i + j)) rest).
    { intros old d. apply imap_ext. intros j x _. simpl. f_equal. lia. }
    rewrite !Hshift.
    destruct (decide (old_posts !! i = Some post)) as [Heq|Hne].
    + assert (Hlt : i < length old_posts) by (by eapply lookup_lt_Some).
      rewrite decide_True by done.
      destruct (lookup_lt_is_Some_2 old_statuses i) as [s Hsi]; [lia|].
      destruct (lookup_lt_is_Some_2 old_notes i) as [n Hni]; [lia|].
      rewrite Hsi, Hni. simpl.
      rewrite IH. by rewrite <- !app_assoc.
    + rewrite decide_False by (by intros [_ ?]).
      rewrite IH. by rewrite <- !app_assoc.
Qed.

Lemma list_assign_length (l l' : list string) (i : nat) (x : string) :
  list_assign l i x = Ok l' → length l' = length l.
Proof.
  unfold list_assign. destruct (decide (i < length l)); [|done].
  intros [= <-]. apply length_insert.
Qed.

Lemma list_assign_lookup (l l' : list string) (i : nat) (x : string) :
  list_assign l i x = Ok l' → l' = <[i := x]> l ∧ i < length l.
Proof.
  unfold list_assign. destruct (decide (i < length l)); [|done].
  by intros [= <-].
Qed.

Lemma plan_wf_set_title (plan : Plan) (t : string) : plan_wf plan → plan_wf (set_title plan t).
Proof. done. Qed.

Lemma tool_wf_store (t : Tool) (pid : string) (plan : Plan) :
  tool_wf t → pid ≠ "" → plan_wf plan → tool_wf (store_plan t pid plan).
Proof.
  intros [Hall Hno] Hpid Hwf. split; simpl.
  - by apply map_Forall_insert_2.
  - by rewrite lookup_insert_ne.
Qed.

Lemma tool_wf_lookup (t : Tool) (pid : string) (plan : Plan) :
  tool_wf t → plans t !! pid = Some plan → plan_wf plan ∧ pid ≠ "".
Proof.
  intros [Hall Hno] Hp. split; [by eapply Hall|].
  intros ->. congruence.
Qed.

Section StoreProperties.

Variable format_text : Plan → string.
Variable list_text : gmap string Plan → option string → string.

Local Abbreviation create := (_create_plan format_text).
Local Abbreviation update := (_update_plan format_text).
Local Abbreviation get := (_get_plan format_text).
Local Abbreviation mark := (_mark_post format_text).
Local Abbreviation exec := (TwitterPlanningTool.execute format_text list_text).
Local Abbreviation ops_from_new ops := (run_ops format_text list_text ops new_tool).

Lemma create_wf (t : Tool) plan_id title posts :
  tool_wf t → tool_wf (create t plan_id title posts).1.
Proof.
  intros Hwf. unfold _create_plan.
  destruct (truthy_str plan_id) as [pid|] eqn:Hpid; [|done].
  apply truthy_str_inv in Hpid as [_ Hne].
  destruct (plans t !! pid); [done|].
  destruct (truthy_str title); [|done].
  destruct posts as [[[|p ps]|b]|]; try done.
  rewrite reply_state.
  destruct Hwf as [Hall Hno]. split; simpl.
  - apply map_Forall_insert_2; [|done].
    split; simpl; by rewrite length_replicate.
  - by rewrite lookup_insert_ne.
Qed.

Lemma update_wf (t : Tool) plan_id title posts :
  tool_wf t → tool_wf (update t plan_id title posts).1.
Proof.
  intros Hwf. unfold _update_plan.
  destruct (truthy_str plan_id) as [pid|] eqn:Hpid; [|done].
  destruct (plans t !! pid) as [plan|] eqn:Hp; [|done].
  destruct (tool_wf_lookup _ _ _ Hwf Hp) as [[Hs Hn] Hne].
  set (plan1 := match truthy_str title with Some t0 => set_title plan t0 | None => plan end).
  assert (Hwf1 : plan_wf plan1).
  { unfold plan1. destruct (truthy_str title); by split. }
  destruct posts as [[[|p ps]|[|]]|]; cbv beta iota; rewrite ?reply_state;
    try (by apply tool_wf_store).
  destruct Hwf1 as [Hs1 Hn1].
  rewrite (update_loop_aligned _ _ _ Hs1 Hn1). cbv beta iota. rewrite reply_state.
  apply tool_wf_store; [done..|].
  split; simpl; by rewrite length_imap.
Qed.

Lemma mark_wf (t : Tool) plan_id post_index status notes :
  tool_wf t → tool_wf (mark t plan_id post_index status notes).1.
Proof.
  intros Hwf. unfold _mark_post.
  destruct (resolve t plan_id) as [pid|]; [|done].
  destruct (plans t !! pid) as [plan|] eqn:Hp; [|done].
  destruct (tool_wf_lookup _ _ _ Hwf Hp) as [[Hs Hn] Hne].
  destruct post_index as [idx|]; [|done].
  case_decide; [done|].
  destruct (truthy_str status) as [st|].
  - case_decide; [|done].
    destruct (list_assign (post_statuses plan) (Z.to_nat idx) st) as [ss|] eqn:Hss; [|done].
    apply list_assign_length in Hss.
    destruct (truthy_str notes) as [n|]; cbv beta iota zeta.
    + change (TwitterPlanningTool.post_notes (set_statuses plan ss))
        with (TwitterPlanningTool.post_notes plan).
      destruct (list_assign (post_notes plan) (Z.to_nat idx) n) as [ns|] eqn:Hns;
        rewrite ?reply_state.
      * apply list_assign_length in Hns.
        apply tool_wf_store; [done..|]. split; simpl; congruence.
      * apply tool_wf_store; [done..|]. split; simpl; congruence.
    + rewrite reply_state. apply tool_wf_store; [done..|]. split; simpl; congruence.
  - destruct (truthy_str notes) as [n|]; [|by rewrite reply_state].
    destruct (list_assign (post_notes plan) (Z.to_nat idx) n) as [ns|] eqn:Hns; [|done].
    apply list_assign_length in Hns. cbv beta iota zeta. rewrite reply_state.
    apply tool_wf_store; [done..|]. split; simpl; congruence.
Qed.

Lemma delete_wf (t : Tool) plan_id :
  tool_wf t → tool_wf (_delete_plan t plan_id).1.
Proof.
  intros [Hall Hno]. unfold _delete_plan.
  destruct (truthy_str plan_id) as [pid|]; [|done].
  destruct (plans t !! pid); [|done].
  split; simpl.
  - by apply map_Forall_delete.
  - apply lookup_delete_None. by right.
Qed.

Lemma execute_wf (t : Tool) (a : Args) : tool_wf t → tool_wf (exec t a).1.
Proof.
  intros Hwf. unfold TwitterPlanningTool.execute.
  repeat case_decide; try done.
  - by apply create_wf.
  - by apply update_wf.
  - unfold _list_plans. by case_decide.
  - unfold _get_plan. destruct (resolve t (arg_plan_id a)); [|done].
    destruct (plans t !! _); [|done]. by rewrite reply_state.
  - unfold _set_active_plan. destruct (truthy_str (arg_plan_id a)); [|done].
    destruct (plans t !! _); [|done]. by rewrite reply_state.
  - by apply mark_wf.
  - by apply delete_wf.
Qed.

Lemma run_ops_wf (ops : list Args) (t : Tool) :
  tool_wf t → tool_wf (run_ops format_text list_text ops t).
Proof.
  revert t. induction ops as [|a ops IH]; intros t Hwf; [done|].
  simpl. apply IH. by apply execute_wf.
Qed.

Lemma new_tool_wf : tool_wf new_tool.
Proof. split; [apply map_Forall_empty | done]. Qed.

Lemma reachable_wf (ops : list Args) : tool_wf (ops_from_new ops).
Proof. apply run_ops_wf, new_tool_wf. Qed.

Lemma update_posts_result (t : Tool) (pid : string) (plan : Plan) title (ps : list Post) :
  pid ≠ "" → plans t !! pid = Some plan → plan_wf plan → ps ≠ [] →
  (update t (Some pid) title (Some (PostList ps))).1
  = store_plan t pid (merged (retitle plan title) ps).
Proof.
  intros Hne Hp [Hs Hn] Hps. unfold _update_plan.
  rewrite truthy_str_Some by done. rewrite Hp.
  fold (retitle plan title).
  assert (Hs1 : length (post_statuses (retitle plan title)) =
                length (posts (retitle plan title))).
  { unfold retitle. by destruct (truthy_str title). }
  assert (Hn1 : length (post_notes (retitle plan title)) =
                length (posts (retitle plan title))).
  { unfold retitle. by destruct (truthy_str title). }
  destruct ps as [|p ps]; [done|].
  rewrite (update_loop_aligned _ _ _ Hs1 Hn1). cbv beta iota.
  by rewrite reply_state.
Qed.

Lemma list_assign_nonempty (l l' : list string) (i : nat) (x : string) :
  list_assign l i x = Ok l' → x ≠ "" →
  ∀ j n, l !! j = Some n → n ≠ "" → ∃ n', l' !! j = Some n' ∧ n' ≠ "".
Proof.
  intros Ha Hx j n Hj Hn. apply list_assign_lookup in Ha as [-> Hlt].
  destruct (decide (i = j)) as [->|Hij].
  - exists x. by rewrite list_lookup_insert_eq.
  - exists n. by rewrite list_lookup_insert_ne.
Qed.

Lemma mark_rel_refl status notes (plan : Plan) : mark_rel status notes plan plan.
Proof. repeat split; eauto. Qed.

Local Ltac solve_mark_rel :=
  split; [done|]; split; [intros; simpl; congruence|];
  split; [intros; simpl; congruence|]; simpl.

(** [_mark_post] leaves the tool as it is, or stores a changed version of
    one plan under its id. *)
Lemma mark_shape (t : Tool) plan_id post_index status notes :
  let t' := (mark t plan_id post_index status notes).1 in
  t' = t ∨
  ∃ pid plan plan', plans t !! pid = Some plan ∧ t' = store_plan t pid plan' ∧
                    mark_rel status notes plan plan'.
Proof.
  unfold _mark_post.
  destruct (resolve t plan_id) as [pid|]; [|by left].
  destruct (plans t !! pid) as [plan|] eqn:Hp; [|by left].
  destruct post_index as [idx|]; [|by left].
  case_decide; [by left|].
  destruct (truthy_str status) as [st|] eqn:Hst.
  - case_decide; [|by left].
    destruct (list_assign (post_statuses plan) (Z.to_nat idx) st) as [ss|] eqn:Hss; [|by left].
    destruct (truthy_str notes) as [n|] eqn:Hnt; cbv beta iota zeta.
    + destruct (truthy_str_inv _ _ Hnt) as [_ Hn0].
      change (TwitterPlanningTool.post_notes (set_statuses plan ss))
        with (TwitterPlanningTool.post_notes plan).
      destruct (list_assign (post_notes plan) (Z.to_nat idx) n) as [ns|] eqn:Hns;
        rewrite ?reply_state.
      * right. exists pid, plan. eexists. split; [done|]. split; [done|].
        solve_mark_rel.
        by eapply list_assign_nonempty.
      * right. exists pid, plan. eexists. split; [done|]. split; [done|].
        solve_mark_rel. eauto.
    + rewrite reply_state.
      right. exists pid, plan. eexists. split; [done|]. split; [done|].
      solve_mark_rel. eauto.
  - destruct (truthy_str notes) as [n|] eqn:Hnt; [|rewrite reply_state; by left].
    destruct (truthy_str_inv _ _ Hnt) as [_ Hn0].
    destruct (list_assign (post_notes plan) (Z.to_nat idx) n) as [ns|] eqn:Hns; [|by left].
    cbv beta iota zeta. rewrite reply_state.
    right. exists pid, plan. eexists. split; [done|]. split; [done|].
    solve_mark_rel. by eapply list_assign_nonempty.
Qed.

(** C1: on a store reached by any sequence of commands, [update] with a new
    posts list gives the entry at index [i] the old status and note when the
    old list has the very same post at [i], and draft and the empty note at
    every other index of the new list. *)
Theorem update_preserves_unchanged_posts (ops : list Args) (pid : string) (plan : Plan)
    (new_title : option string) (new_posts : list Post) (i : nat) (post : Post) :
  plans (ops_from_new ops) !! pid = Some plan →
  new_posts !! i = Some post →
  ∃ plan',
    plans (update (ops_from_new ops) (Some pid) new_title (Some (PostList new_posts))).1
      !! pid = Some plan' ∧
    posts plan' = new_posts ∧
    (posts plan !! i = Some post →
       post_statuses plan' !! i = post_statuses plan !! i ∧
       post_notes plan' !! i = post_notes plan !! i) ∧
    (posts plan !! i ≠ Some post →
       post_statuses plan' !! i = Some "draft" ∧ post_notes plan' !! i = Some "").
Proof.
  intros Hp Hi.
  destruct (tool_wf_lookup _ _ _ (reachable_wf ops) Hp) as [Hwf Hne].
  assert (Hps : new_posts ≠ []) by (intros ->; done).
  rewrite (update_posts_result _ _ _ new_title _ Hne Hp Hwf Hps). simpl.
  exists (merged (retitle plan new_title) new_posts).
  split; [by rewrite lookup_insert_eq|]. split; [done|].
  assert (Hposts : posts (retitle plan new_title) = posts plan).
  { unfold retitle. by destruct (truthy_str new_title). }
  assert (Hst : post_statuses (retitle plan new_title) = post_statuses plan).
  { unfold retitle. by destruct (truthy_str new_title). }
  assert (Hnt : post_notes (retitle plan new_title) = post_notes plan).
  { unfold retitle. by destruct (truthy_str new_title). }
  simpl. rewrite !list_lookup_imap, Hi, Hposts, Hst, Hnt. simpl. unfold merge_at.
  destruct Hwf as [Hs Hn].
  split.
  - intros Hsame. rewrite !decide_True by done.
    apply lookup_lt_Some in Hsame.
    destruct (lookup_lt_is_Some_2 (post_statuses plan) i) as [s Hsi]; [lia|].
    destruct (lookup_lt_is_Some_2 (post_notes plan) i) as [n Hni]; [lia|].
    by rewrite Hsi, Hni.
  - intros Hdiff. by rewrite !decide_False.
Qed.

(** C5: on a store reached by any sequence of commands, [create] with an id
    that is present raises the already-exists error whatever the title and
    the posts are, and the tool (every plan and the active pointer) is the
    tool before the call. *)
Theorem create_duplicate_rejected (ops : list Args) (pid : string) (plan : Plan)
    (new_title : option string) (new_posts : option PostsArg) :
  plans (ops_from_new ops) !! pid = Some plan →
  create (ops_from_new ops) (Some pid) new_title new_posts
    = (ops_from_new ops, Raise (AlreadyExists pid)).
Proof.
  intros Hp.
  destruct (tool_wf_lookup _ _ _ (reachable_wf ops) Hp) as [_ Hne].
  unfold _create_plan. rewrite truthy_str_Some by done. by rewrite Hp.
Qed.

(** C6: after any sequence of commands on a new tool, whether they succeed
    or raise, every stored plan has as many statuses as posts and as many
    posts as notes. *)
Theorem lists_stay_aligned (ops : list Args) (pid : string) (plan : Plan) :
  plans (ops_from_new ops) !! pid = Some plan →
  length (post_statuses plan) = length (posts plan) ∧
  length (posts plan) = length (post_notes plan).
Proof.
  intros Hp.
  destruct (tool_wf_lookup _ _ _ (reachable_wf ops) Hp) as [[Hs Hn] _].
  split; congruence.
Qed.

(** C8: on a store reached by any sequence of commands, [delete] of a
    present plan succeeds and removes it; when it was the active plan the
    pointer is cleared and [get] without an id raises the no-active-plan
    error; when it was not, the pointer is as before. *)
Theorem delete_clears_active_pointer (ops : list Args) (pid : string) (plan : Plan) :
  plans (ops_from_new ops) !! pid = Some plan →
  ∃ t' out,
    _delete_plan (ops_from_new ops) (Some pid) = (t', Ok out) ∧
    plans t' = delete pid (plans (ops_from_new ops)) ∧
    plans t' !! pid = None ∧
    (_current_plan_id (ops_from_new ops) = Some pid →
       _current_plan_id t' = None ∧ get t' None = (t', Raise NoActivePlan)) ∧
    (_current_plan_id (ops_from_new ops) ≠ Some pid →
       _current_plan_id t' = _current_plan_id (ops_from_new ops)).
Proof.
  intros Hp.
  destruct (tool_wf_lookup _ _ _ (reachable_wf ops) Hp) as [_ Hne].
  unfold _delete_plan. rewrite truthy_str_Some by done. rewrite Hp.
  eexists _, _. split; [reflexivity|]. simpl.
  split; [done|]. split; [apply lookup_delete_eq|]. split.
  - intros Hact. rewrite decide_True by done. split; [done|].
    unfold _get_plan, resolve. simpl. rewrite ?decide_True by done. done.
  - intros Hact. by rewrite decide_False.
Qed.

(** C9, as the code has it: on a store reached by any sequence of commands,
    [update] with a title replaces the stored title when the given title is
    not the empty string, and keeps the stored title when it is. *)
Theorem update_title_unless_empty (ops : list Args) (pid : string) (plan : Plan)
    (new_title : string) (new_posts : option PostsArg) :
  plans (ops_from_new ops) !! pid = Some plan →
  ∃ plan',
    plans (update (ops_from_new ops) (Some pid) (Some new_title) new_posts).1 !! pid
      = Some plan' ∧
    title plan' = (if decide (new_title = "") then title plan else new_title).
Proof.
  intros Hp.
  destruct (tool_wf_lookup _ _ _ (reachable_wf ops) Hp) as [_ Hne].
  unfold _update_plan. rewrite truthy_str_Some by done. rewrite Hp.
  fold (retitle plan (Some new_title)).
  assert (Ht : title (retitle plan (Some new_title)) =
               if decide (new_title = "") then title plan else new_title).
  { unfold retitle, truthy_str. by destruct (decide (new_title = "")). }
  destruct new_posts as [[[|p ps]|[|]]|]; cbv beta iota; rewrite ?reply_state;
    try (eexists; split; [apply lookup_insert_eq|done]).
  destruct (update_loop _ _ _ 0 (p :: ps) [] []) as [[ss ns]|e];
    cbv beta iota; rewrite ?reply_state.
  - eexists. split; [apply lookup_insert_eq|done].
  - eexists. split; [apply lookup_insert_eq|done].
Qed.

(** C10: [mark_post], on any tool and with any arguments, keeps every stored
    plan; with no note or the empty note given the notes of the plan are as
    before, with no status given the statuses are as before, and a note that
    was not empty is not empty afterwards. *)
Theorem mark_post_never_empties_note (t : Tool) (target : option string)
    (post_index : option Z) (status notes : option string) (pid : string) (plan : Plan) :
  plans t !! pid = Some plan →
  ∃ plan',
    plans (mark t target post_index status notes).1 !! pid = Some plan' ∧
    (notes = None ∨ notes = Some "" → post_notes plan' = post_notes plan) ∧
    (status = None → post_statuses plan' = post_statuses plan) ∧
    (∀ j n, post_notes plan !! j = Some n → n ≠ "" →
            ∃ n', post_notes plan' !! j = Some n' ∧ n' ≠ "").
Proof.
  intros Hp.
  assert (Hrel : ∃ plan', plans (mark t target post_index status notes).1 !! pid = Some plan'
                          ∧ mark_rel status notes plan plan').
  { destruct (mark_shape t target post_index status notes)
      as [->|(pid0 & plan0 & plan0' & Hp0 & -> & Hrel)].
    - exists plan. split; [done|apply mark_rel_refl].
    - simpl. destruct (decide (pid0 = pid)) as [->|Hpid].
      + rewrite lookup_insert_eq. exists plan0'. split; [done|]. congruence.
      + rewrite lookup_insert_ne by done. exists plan. split; [done|apply mark_rel_refl]. }
  destruct Hrel as (plan' & Hp' & _ & Hnotes & Hstat & Hkeep).
  exists plan'. split; [done|]. split; [|split; [|done]].
  - intros [->| ->]; by apply Hnotes.
  - intros ->. by apply Hstat.
Qed.

End StoreProperties.

(** * Properties of the execution loop *)

Import TwitterPlanningFlow.

Section FlowProperties.

Context {Agent LLM : Type}.
Variable agent_run : Agent → string → Agent * Result string.
Variable agent_state : Agent → AgentState.
Variable llm_ask : LLM → string → string → LLM * Result string.
Variable llm_ask_tool : LLM → string → string → LLM * Result (list ToolCall).
Variable format_text : Plan → string.
Variable list_text : gmap string Plan → option string → string.
Variable storage_text : string → Plan → string.
Variable post_prompt_text : string → option nat → Post → string.

Local Abbreviation Flow := (@Flow Agent LLM).
Local Abbreviation texec := (tool_execute format_text list_text).
Local Abbreviation current_info := (_get_current_post_info format_text list_text).
Local Abbreviation plan_text := (_get_plan_text format_text list_text storage_text).
Local Abbreviation storage_plan_text := (_generate_plan_text_from_storage storage_text).
Local Abbreviation mark_posted := (_mark_post_posted format_text list_text).
Local Abbreviation execute_post :=
  (_execute_post agent_run format_text list_text storage_text post_prompt_text).
Local Abbreviation finalize :=
  (_finalize_plan agent_run llm_ask format_text list_text storage_text).
Local Abbreviation finished := (executor_finished agent_state).
Local Abbreviation loop :=
  (execute_loop agent_run agent_state llm_ask format_text list_text storage_text
     post_prompt_text).
Local Abbreviation run :=
  (execute agent_run agent_state llm_ask llm_ask_tool format_text list_text storage_text
     post_prompt_text).

Lemma texec_mark (self : Flow) pid idx st notes :
  texec self (mark_args pid idx st notes) =
  _mark_post format_text (twitter_planning_tool self) (Some pid) (Z.of_nat <$> idx)
    (Some (value st)) notes.
Proof. reflexivity. Qed.

Lemma texec_get (self : Flow) pid :
  texec self (get_args pid) = _get_plan format_text (twitter_planning_tool self) (Some pid).
Proof. reflexivity. Qed.

Lemma get_plan_tool (t : Tool) pid : (_get_plan format_text t pid).1 = t.
Proof.
  unfold _get_plan. destruct (resolve t pid); [|done].
  destruct (plans t !! _); [|done]. apply reply_state.
Qed.

Lemma with_tool_same (self : Flow) : with_tool self (twitter_planning_tool self) = self.
Proof. by destruct self. Qed.

(** The language model is not touched by the selection of a post. *)
Lemma current_info_llm (self : Flow) : llm (current_info self).1 = llm self.
Proof.
  unfold _get_current_post_info. case_decide; [done|].
  destruct (plans _ !! _) as [plan|]; [|done].
  destruct (find_active _ _ _) as [[i post]|]; [|done].
  destruct (texec _ _) as [tool1 [r|e]]; [done|].
  by destruct (plans tool1 !! _).
Qed.

Lemma plan_text_llm (self : Flow) : llm (plan_text self).1 = llm self.
Proof.
  unfold _get_plan_text. destruct (texec _ _) as [tool1 [r|e]]; [done|].
  unfold _generate_plan_text_from_storage. simpl.
  by destruct (plans tool1 !! _).
Qed.

Lemma run_agent_llm (self : Flow) executor prompt :
  llm (run_agent agent_run self executor prompt).1 = llm self.
Proof.
  unfold run_agent. destruct executor as [k|]; [|done].
  destruct (agents self !! k) as [a|]; [|done].
  by destruct (agent_run a prompt).
Qed.

Lemma mark_posted_llm (self : Flow) : llm (mark_posted self) = llm self.
Proof.
  unfold _mark_post_posted. destruct (current_post_index self); [|done].
  destruct (texec _ _) as [tool1 [r|e]]; [done|].
  by destruct (plans tool1 !! _).
Qed.

Lemma execute_post_llm (self : Flow) executor post_info :
  llm (execute_post self executor post_info).1 = llm self.
Proof.
  unfold _execute_post.
  pose proof (plan_text_llm self) as H1.
  destruct (plan_text self) as [self1 plan_status]. simpl in H1.
  pose proof (run_agent_llm self1 executor
                (post_prompt_text plan_status (current_post_index self1) post_info)) as H2.
  destruct (run_agent _ _ _ _) as [self2 [post_result|e]]; simpl in H2.
  - simpl. rewrite mark_posted_llm. congruence.
  - destruct (texec _ _) as [tool3 [r|e']]; simpl; congruence.
Qed.

(** C3, as the code has it: at any iteration of the loop, when the post was
    run and the executor is then in state FINISHED, the loop returns at
    once with the text gathered so far; the language model has not been
    asked for a summary. *)
Theorem finished_executor_skips_finalization (fuel : nat) (self self1 self2 : Flow)
    (result post_result : string) (i : nat) (post_info : Post) :
  current_info self = (self1, Some (i, post_info)) →
  execute_post (with_index self1 (Some i))
    (get_executor (with_index self1 (Some i)) (post_type_of post_info)) post_info
    = (self2, Ok post_result) →
  finished self2 (get_executor (with_index self1 (Some i)) (post_type_of post_info)) = true →
  loop (S fuel) self result = Some (self2, Ok (result +:+ post_result +:+ "
")) ∧
  llm self2 = llm self.
Proof.
  intros Hsel Hexec Hfin. split.
  - simpl. rewrite Hsel, Hexec, Hfin. done.
  - pose proof (current_info_llm self) as H1. rewrite Hsel in H1. simpl in H1.
    pose proof (execute_post_llm (with_index self1 (Some i))
      (get_executor (with_index self1 (Some i)) (post_type_of post_info)) post_info) as H2.
    rewrite Hexec in H2. simpl in H2. congruence.
Qed.

Lemma current_info_absent (self : Flow) :
  plans (twitter_planning_tool self) !! active_plan_id self = None →
  current_info self = (self, None).
Proof.
  intros Hp. unfold _get_current_post_info. case_decide; [done|]. by rewrite Hp.
Qed.

Lemma run_agent_tool (self : Flow) executor prompt :
  twitter_planning_tool (run_agent agent_run self executor prompt).1
  = twitter_planning_tool self.
Proof.
  unfold run_agent. destruct executor as [k|]; [|done].
  destruct (agents self !! k) as [a|]; [|done].
  by destruct (agent_run a prompt).
Qed.

Lemma plan_text_absent (self : Flow) :
  plans (twitter_planning_tool self) !! active_plan_id self = None →
  twitter_planning_tool (plan_text self).1 = twitter_planning_tool self.
Proof.
  intros Hp. unfold _get_plan_text. rewrite texec_get.
  pose proof (get_plan_tool (twitter_planning_tool self) (Some (active_plan_id self))) as Ht.
  destruct (_get_plan _ _ _) as [tool1 [r|e]]; simpl in Ht; subst tool1.
  - done.
  - rewrite with_tool_same. unfold _generate_plan_text_from_storage. by rewrite Hp.
Qed.

Lemma finalize_absent (self : Flow) :
  plans (twitter_planning_tool self) !! active_plan_id self = None →
  twitter_planning_tool (finalize self).1 = twitter_planning_tool self.
Proof.
  intros Hp. unfold _finalize_plan.
  pose proof (plan_text_absent self Hp) as H1.
  destruct (plan_text self) as [self1 text]. simpl in H1.
  destruct (llm_ask _ _ _) as [llm1 [response|e]]; [done|].
  pose proof (run_agent_tool (with_llm self1 llm1) (primary_agent self1)
                (summary_prompt text)) as H2.
  destruct (run_agent _ _ _ _) as [self2 [summary|e2]]; simpl in H2; simpl; congruence.
Qed.

(** C4, as the code has it: [execute] with the empty request, when no plan
    is stored under the flow's plan id, creates no plan: the loop finds no
    post, finalizes at once, and the plan store is as it was. *)
Theorem execute_empty_request_creates_no_plan (fuel : nat) (self : Flow) (key : string) :
  primary_agent self = Some key →
  plans (twitter_planning_tool self) !! active_plan_id self = None →
  ∃ (self' : Flow) (summary : string),
    run (S fuel) self "" = Some (self', Returned summary) ∧
    finalize (with_index self None) = (self', summary) ∧
    twitter_planning_tool self' = twitter_planning_tool self ∧
    plans (twitter_planning_tool self') !! active_plan_id self = None.
Proof.
  intros Hprim Hp. unfold execute. rewrite Hprim. rewrite decide_True by done.
  unfold run_loop. simpl. rewrite (current_info_absent self Hp).
  pose proof (finalize_absent (with_index self None) Hp) as Ht.
  destruct (finalize (with_index self None)) as [self' summary]. simpl in Ht.
  exists self', summary. split; [done|]. split; [done|]. split; [done|]. by rewrite Ht.
Qed.

Lemma status_at_scan (ss : list string) (i : nat) :
  match ss !! i with None => value DRAFT | Some s => s end = status_at ss i.
Proof. unfold status_at. by destruct (ss !! i). Qed.

(** The scan returns the first index with an active status. *)
Lemma find_active_Some (ss : list string) (ps : list Post) :
  ∀ (i k : nat) (post : Post),
    find_active ss i ps = Some (k, post) →
    i ≤ k ∧ ps !! (k - i) = Some post ∧
    status_at ss k ∈ get_active_statuses ∧
    ∀ j, i ≤ j < k → status_at ss j ∉ get_active_statuses.
Proof.
  induction ps as [|p ps IH]; intros i k post; simpl; [done|].
  rewrite status_at_scan. case_decide as Hact.
  - intros [= <- <-]. rewrite Nat.sub_diag. repeat split; [done..|]. lia.
  - intros Hfind. destruct (IH _ _ _ Hfind) as (Hle & Hlook & Hk & Hbefore).
    split; [lia|]. split.
    + replace (k - i) with (S (k - S i)) by lia. done.
    + split; [done|]. intros j Hj.
      destruct (decide (j = i)) as [->|Hne]; [done|]. apply Hbefore. lia.
Qed.

Lemma find_active_first (ss : list string) (ps : list Post) :
  ∀ (i k : nat) (post : Post),
    i ≤ k → ps !! (k - i) = Some post →
    status_at ss k ∈ get_active_statuses →
    (∀ j, i ≤ j < k → status_at ss j ∉ get_active_statuses) →
    find_active ss i ps = Some (k, post).
Proof.
  induction ps as [|p ps IH]; intros i k post Hle Hlook Hk Hbefore; simpl; [done|].
  rewrite status_at_scan.
  destruct (decide (i = k)) as [->|Hne].
  - rewrite Nat.sub_diag in Hlook. simpl in Hlook. injection Hlook as ->.
    by rewrite decide_True.
  - rewrite decide_False by (apply Hbefore; lia).
    apply IH; [lia| |done|intros j Hj; apply Hbefore; lia].
    replace (k - i) with (S (k - S i)) in Hlook by lia. done.
Qed.

Lemma value_truthy (st : PostStatus) : truthy_str (Some (value st)) = Some (value st).
Proof. by destruct st. Qed.

Lemma value_valid (st : PostStatus) : value st ∈ valid_statuses.
Proof. destruct st; unfold valid_statuses; simpl; set_solver. Qed.

Lemma marked_wf (plan : Plan) k st notes : plan_wf plan → plan_wf (marked plan k st notes).
Proof.
  intros [Hs Hn]. unfold marked. destruct (truthy_str notes); split; simpl;
    rewrite ?length_insert; done.
Qed.

Lemma marked_renderable (plan : Plan) k st notes :
  renderable plan → renderable (marked plan k st notes).
Proof. unfold renderable, marked. by destruct (truthy_str notes). Qed.

(** [mark_post] succeeds on an aligned plan all of whose posts have a
    content key, at an index of its posts. *)
Lemma mark_post_ok (t : Tool) (pid : string) (plan : Plan) (k : nat) (st : PostStatus)
    (notes : option string) :
  pid ≠ "" → plans t !! pid = Some plan → plan_wf plan → renderable plan →
  k < length (posts plan) →
  ∃ out, _mark_post format_text t (Some pid) (Some (Z.of_nat k)) (Some (value st)) notes
         = (store_plan t pid (marked plan k (value st) notes), Ok out).
Proof.
  intros Hne Hp [Hs Hn] Hr Hk. unfold _mark_post, resolve.
  rewrite truthy_str_Some by done. rewrite Hp.
  rewrite decide_False by lia.
  rewrite value_truthy. rewrite decide_True by apply value_valid.
  rewrite Nat2Z.id. unfold list_assign, marked.
  rewrite decide_True by lia.
  destruct (truthy_str notes) as [n|].
  - simpl. rewrite decide_True by lia.
    rewrite reply_renderable by done. eexists. reflexivity.
  - cbv beta iota zeta. rewrite reply_renderable by done. eexists. reflexivity.
Qed.

Lemma current_info_wf (self : Flow) (plan : Plan) (k : nat) (post : Post) :
  active_plan_id self ≠ "" →
  plans (twitter_planning_tool self) !! active_plan_id self = Some plan →
  plan_wf plan → renderable plan →
  find_active (post_statuses plan) 0 (posts plan) = Some (k, post) →
  current_info self =
    (with_tool self (store_plan (twitter_planning_tool self) (active_plan_id self)
                       (marked plan k (value READY) None)),
     Some (k, info_of post)).
Proof.
  intros Hne Hp Hwf Hr Hfind. unfold _get_current_post_info.
  rewrite decide_False by done. rewrite Hp, Hfind. rewrite texec_mark. simpl.
  destruct (find_active_Some _ _ _ _ _ Hfind) as (_ & Hlook & _).
  apply lookup_lt_Some in Hlook.
  destruct (mark_post_ok (twitter_planning_tool self) _ plan k READY None Hne Hp Hwf Hr)
    as [out Hout]; [lia|].
  simpl in Hout. rewrite Hout. done.
Qed.

Lemma plan_text_present (self : Flow) (plan : Plan) :
  active_plan_id self ≠ "" →
  plans (twitter_planning_tool self) !! active_plan_id self = Some plan →
  renderable plan →
  plan_text self = (self, format_text plan).
Proof.
  intros Hne Hp Hr. unfold _get_plan_text. rewrite texec_get.
  unfold _get_plan, resolve. rewrite truthy_str_Some by done. rewrite Hp.
  rewrite reply_renderable by done.
  simpl. by rewrite with_tool_same.
Qed.

(** What [_execute_post] does when the executor raises, the plan is aligned
    and every post of it has a content key: the post is marked failed with
    the error as its note. *)
Lemma execute_post_raise (self : Flow) (plan : Plan) (k : nat) (post_info : Post)
    (key : string) (a a' : Agent) (e : Exception) :
  active_plan_id self ≠ "" →
  plans (twitter_planning_tool self) !! active_plan_id self = Some plan →
  plan_wf plan → renderable plan → k < length (posts plan) →
  current_post_index self = Some k →
  agents self !! key = Some a →
  agent_run a (post_prompt_text (format_text plan) (Some k) post_info) = (a', Raise e) →
  execute_post self (Some key) post_info =
    (with_tool (with_agents self (<[key := a']> (agents self)))
       (store_plan (twitter_planning_tool self) (active_plan_id self)
          (marked plan k (value FAILED) (Some ("Error: " +:+ str e)))),
     Ok ("Error executing post " +:+ pretty k +:+ ": " +:+ str e)).
Proof.
  intros Hne Hp Hwf Hr Hk Hidx Ha Hrun. unfold _execute_post.
  rewrite (plan_text_present self plan Hne Hp Hr). rewrite Hidx.
  unfold run_agent. rewrite Ha, Hrun. rewrite texec_mark. simpl.
  rewrite Hidx. simpl.
  destruct (mark_post_ok (twitter_planning_tool self) _ plan k FAILED
              (Some ("Error: " +:+ str e)) Hne Hp Hwf Hr Hk) as [out Hout].
  simpl in Hout. rewrite Hout. done.
Qed.

(** C7, as the code has it: when the plan is aligned, every post of it has a
    content key, and the executor raises on the post the loop selected, the
    post is marked failed with the note "Error: " followed by the error
    text, which is not empty, and the error line is added to the result.
    The loop then returns that result at once when the executor is in state
    FINISHED, and goes on to its next iteration otherwise; the next
    selection is the next post when that post is active. *)
Theorem executor_error_fails_item_and_continues (fuel : nat) (self : Flow)
    (result : string) (plan : Plan) (k : nat) (post : Post) (key : string)
    (a a' : Agent) (e : Exception) :
  active_plan_id self ≠ "" →
  plans (twitter_planning_tool self) !! active_plan_id self = Some plan →
  plan_wf plan →
  renderable plan →
  find_active (post_statuses plan) 0 (posts plan) = Some (k, post) →
  get_executor self (post_type_of (info_of post)) = Some key →
  agents self !! key = Some a →
  agent_run a (post_prompt_text (format_text (marked plan k (value READY) None))
                 (Some k) (info_of post)) = (a', Raise e) →
  ∃ (self2 : Flow) (plan2 : Plan),
    loop (S fuel) self result =
      (if bool_decide (agent_state a' = FINISHED)
       then Some (self2, Ok (result +:+ ("Error executing post " +:+ pretty k +:+ ": "
                                         +:+ str e) +:+ "
"))
       else loop fuel self2
              (result +:+ ("Error executing post " +:+ pretty k +:+ ": " +:+ str e) +:+ "
")) ∧
    plans (twitter_planning_tool self2) !! active_plan_id self = Some plan2 ∧
    post_statuses plan2 !! k = Some (value FAILED) ∧
    post_notes plan2 !! k = Some ("Error: " +:+ str e) ∧
    "Error: " +:+ str e ≠ "" ∧
    (∀ post', posts plan !! S k = Some post' →
              status_at (post_statuses plan) (S k) ∈ get_active_statuses →
              ∃ self3, current_info self2 = (self3, Some (S k, info_of post'))).
Proof.
  intros Hne Hp Hwf Hr Hfind Hex Ha Hrun.
  destruct (find_active_Some _ _ _ _ _ Hfind) as (_ & Hlook & Hactive & Hbefore).
  rewrite Nat.sub_0_r in Hlook.
  assert (Hk : k < length (posts plan)) by (by eapply lookup_lt_Some).
  set (plan1 := marked plan k (value READY) None).
  set (tool1 := store_plan (twitter_planning_tool self) (active_plan_id self) plan1).
  set (self1 := with_index (with_tool self tool1) (Some k)).
  assert (Hwf1 : plan_wf plan1) by (by apply marked_wf).
  assert (Hr1 : renderable plan1) by (by apply marked_renderable).
  assert (Hp1 : plans (twitter_planning_tool self1) !! active_plan_id self1 = Some plan1).
  { simpl. apply lookup_insert_eq. }
  pose proof (execute_post_raise self1 plan1 k (info_of post) key a a' e
                Hne Hp1 Hwf1 Hr1 Hk eq_refl Ha Hrun) as Hpost.
  set (plan2 := marked plan1 k (value FAILED) (Some ("Error: " +:+ str e))) in *.
  set (self2 := with_tool (with_agents self1 (<[key := a']> (agents self1)))
                  (store_plan (twitter_planning_tool self1) (active_plan_id self1) plan2)) in *.
  destruct Hwf as [Hs Hn].
  exists self2, plan2. split; [|split; [|split; [|split; [|split]]]].
  - simpl. rewrite (current_info_wf self plan k post Hne Hp (conj Hs Hn) Hr Hfind).
    fold plan1. fold tool1. fold self1.
    replace (get_executor self1 (post_type_of (info_of post))) with (Some key)
      by (symmetry; exact Hex).
    rewrite Hpost.
    assert (Hfin : finished self2 (Some key) = bool_decide (agent_state a' = FINISHED)).
    { unfold executor_finished. simpl. by rewrite lookup_insert_eq. }
    rewrite Hfin. by destruct (bool_decide (agent_state a' = FINISHED)).
  - simpl. apply lookup_insert_eq.
  - unfold plan2, marked. simpl. rewrite list_lookup_insert_eq; [done|].
    rewrite length_insert. lia.
  - unfold plan2, marked. simpl. rewrite list_lookup_insert_eq; [done|]. lia.
  - done.
  - intros post' Hnext Hnext_active.
    assert (Hwf2 : plan_wf plan2) by (by apply marked_wf).
    assert (Hr2 : renderable plan2) by (by apply marked_renderable).
    assert (Hp2 : plans (twitter_planning_tool self2) !! active_plan_id self2 = Some plan2).
    { simpl. apply lookup_insert_eq. }
    eexists. apply (current_info_wf self2 plan2 (S k) post' Hne Hp2 Hwf2 Hr2).
    apply find_active_first; [lia|by rewrite Nat.sub_0_r| |].
    + unfold plan2, marked, status_at in *. simpl.
      rewrite !list_lookup_insert_ne by lia. done.
    + intros j Hj. unfold plan2, marked, status_at. simpl.
      destruct (decide (j = k)) as [->|Hjk].
      * rewrite list_lookup_insert_eq by (rewrite length_insert; lia). simpl.
        unfold get_active_statuses. simpl.
        rewrite !not_elem_of_cons. repeat split; try done. apply not_elem_of_nil.
      * rewrite !list_lookup_insert_ne by done. apply Hbefore. lia.
Qed.

End FlowProperties.

(** * The theorems at concrete inputs *)

Import Demo.

Lemma update_preserves_unchanged_posts_witness :
  ∃ plan',
    plans (_update_plan plain_format noted_tool (Some "p") None
             (Some (PostList [demo_post "one"; demo_post "changed"]))).1 !! "p"
      = Some plan' ∧
    post_statuses plan' !! 0 = Some "posted" ∧
    post_notes plan' !! 0 = Some "sent" ∧
    post_statuses plan' !! 1 = Some "draft" ∧
    post_notes plan' !! 1 = Some "".
Proof.
  destruct (update_preserves_unchanged_posts plain_format plain_list
              [demo_create; demo_note] "p" noted_plan None
              [demo_post "one"; demo_post "changed"] 0 (demo_post "one"))
    as (plan' & Hp & _ & Hsame & _); [reflexivity|reflexivity|].
  exists plan'. split; [exact Hp|].
  destruct (Hsame eq_refl) as [Hs Hn].
  split; [exact Hs|]. split; [exact Hn|].
  vm_compute in Hp. injection Hp as <-. split; reflexivity.
Defined.

Lemma create_duplicate_rejected_witness :
  _create_plan plain_format demo_tool (Some "p") (Some "Other") None
  = (demo_tool, Raise (AlreadyExists "p")).
Proof.
  apply (create_duplicate_rejected plain_format plain_list [demo_create] "p" demo_plan).
  reflexivity.
Defined.

Lemma lists_stay_aligned_witness :
  length (post_statuses noted_plan) = length (posts noted_plan) ∧
  length (posts noted_plan) = length (post_notes noted_plan).
Proof.
  apply (lists_stay_aligned plain_format plain_list [demo_create; demo_note] "p").
  reflexivity.
Defined.

Lemma delete_clears_active_pointer_witness :
  ∃ t' out,
    _delete_plan demo_tool (Some "p") = (t', Ok out) ∧
    plans t' !! "p" = None ∧
    _current_plan_id t' = None ∧
    _get_plan plain_format t' None = (t', Raise NoActivePlan).
Proof.
  destruct (delete_clears_active_pointer plain_format plain_list [demo_create] "p" demo_plan)
    as (t' & out & Hdel & _ & Hgone & Hactive & _); [reflexivity|].
  destruct (Hactive eq_refl) as [Hcur Hget].
  exists t', out. split; [exact Hdel|]. split; [exact Hgone|]. split; [exact Hcur|exact Hget].
Defined.

Lemma update_title_unless_empty_witness :
  ∃ plan',
    plans (_update_plan plain_format demo_tool (Some "p") (Some "Relaunch") None).1 !! "p"
      = Some plan' ∧
    title plan' = "Relaunch".
Proof.
  destruct (update_title_unless_empty plain_format plain_list [demo_create] "p" demo_plan
              "Relaunch" None) as (plan' & Hp & Ht); [reflexivity|].
  exists plan'. split; [exact Hp|exact Ht].
Defined.

(** C9 fails on the empty string: the given title is the empty string and
    the stored title is still "Launch". *)
Lemma update_empty_title_keeps_title :
  title <$> plans (_update_plan plain_format demo_tool (Some "p") (Some "") None).1 !! "p"
    = Some "Launch" ∧
  "Launch" ≠ "".
Proof. split; [reflexivity|discriminate]. Qed.

Lemma mark_post_never_empties_note_witness :
  ∃ plan',
    plans (_mark_post plain_format noted_tool (Some "p") (Some 0%Z) None (Some "")).1 !! "p"
      = Some plan' ∧
    post_notes plan' = ["sent"; ""] ∧
    post_statuses plan' = ["posted"; "draft"].
Proof.
  destruct (mark_post_never_empties_note plain_format noted_tool (Some "p") (Some 0%Z)
              None (Some "") "p" noted_plan)
    as (plan' & Hp & Hnotes & Hstat & _); [reflexivity|].
  exists plan'. split; [exact Hp|]. split; [apply Hnotes; by right|by apply Hstat].
Defined.

(** C2 fails after an executor failure: the plan has one post and no note
    slot, the executor raises, and the [mark_post] call of the handler in
    [_execute_post] raises in turn; nothing catches it before the handler of
    [execute], which ends the run with its failure text.  The status had
    been set to failed before the note assignment raised. *)
Theorem failed_mark_after_executor_error_aborts_run :
  report <$> demo_execute 5 (demo_flow short_tool breaker) ""
  = Some (Returned "Execution failed: list assignment index out of range",
          Some ["failed"], Some [], 0).
Proof. vm_compute. reflexivity. Qed.

(** The sibling paths are guarded: with no status slot the ready mark
    raises, the handler of [_get_current_post_info] pads the list in memory,
    and the run goes on to post and to finalize. *)
Lemma failed_ready_mark_is_corrected :
  report <$> demo_execute 5
    (demo_flow {| plans := {[ "p" := {| plan_id := "p"; title := "Launch";
                                         posts := [demo_post "one"];
                                         post_statuses := []; post_notes := [""] |} ]};
                  _current_plan_id := Some "p" |} worker) ""
  = Some (Returned "posted
Twitter campaign plan completed:

summary", Some ["posted"], Some [""], 1).
Proof. vm_compute. reflexivity. Qed.

(** The same unguarded mark aborts the run on a plan built by a command:
    the only post has no content key, so [create] stored the plan and raised
    from the rendering; the executor raises, the failure mark writes the
    status and the note and raises from the rendering in turn. *)
Lemma failed_mark_on_unrendered_plan_aborts_run :
  TwitterPlanningTool.execute plain_format plain_list new_tool bare_create
    = (bare_tool, Raise (KeyError "'content'")) ∧
  plans bare_tool !! "p" = Some bare_plan ∧
  report <$> demo_execute 5 (demo_flow bare_tool breaker) ""
  = Some (Returned "Execution failed: 'content'",
          Some ["failed"], Some ["Error: boom"], 0).
Proof. vm_compute. done. Qed.

(** C3 fails: the executor is FINISHED after the first of two posts; the
    returned text is the output of that post alone, the second post is still
    draft, and the language model was never asked for a summary. *)
Lemma finished_executor_returns_without_summary :
  report <$> demo_execute 5 (demo_flow demo_tool finisher) ""
  = Some (Returned "posted
", Some ["posted"; "draft"], Some [""; ""], 0).
Proof. vm_compute. reflexivity. Qed.

Lemma finished_executor_skips_finalization_witness :
  ∃ self2,
    demo_loop 1 (demo_flow demo_tool finisher) "" = Some (self2, Ok "posted
") ∧
    llm self2 = 0.
Proof.
  eexists.
  eapply (finished_executor_skips_finalization demo_run state demo_ask
            plain_format plain_list plain_storage plain_prompt
            0 (demo_flow demo_tool finisher) _ _ "" "posted" 0 _);
    reflexivity.
Defined.

(** C4 fails: no plan is stored under "p", the request is empty, and after
    the run there is still no plan under "p"; the run went straight to the
    summary. *)
Lemma empty_request_synthesizes_no_plan :
  report <$> demo_execute 5 (demo_flow new_tool worker) ""
  = Some (Returned "Twitter campaign plan completed:

summary", None, None, 1).
Proof. vm_compute. reflexivity. Qed.

Lemma execute_empty_request_creates_no_plan_witness :
  ∃ self' summary,
    demo_execute 1 (demo_flow new_tool worker) "" = Some (self', Returned summary) ∧
    twitter_planning_tool self' = new_tool.
Proof.
  destruct (execute_empty_request_creates_no_plan demo_run state demo_ask demo_ask_tool
              plain_format plain_list plain_storage plain_prompt
              0 (demo_flow new_tool worker) "manus")
    as (self' & summary & Hrun & _ & Htool & _); [reflexivity|reflexivity|].
  exists self', summary. split; [exact Hrun|exact Htool].
Defined.

(** C7 fails: the executor raises on the first of two posts and is FINISHED
    afterwards; the first post is failed with its note, the second post is
    still draft, and the loop has stopped without running it. *)
Lemma failing_finished_executor_stops_loop :
  report <$> demo_execute 5 (demo_flow demo_tool last_breaker) ""
  = Some (Returned "Error executing post 0: boom
", Some ["failed"; "draft"], Some ["Error: boom"; ""], 0).
Proof. vm_compute. reflexivity. Qed.

Lemma executor_error_fails_item_and_continues_witness :
  ∃ self2 plan2,
    demo_loop 2 (demo_flow demo_tool breaker) ""
      = demo_loop 1 self2 "Error executing post 0: boom
" ∧
    plans (twitter_planning_tool self2) !! "p" = Some plan2 ∧
    post_statuses plan2 !! 0 = Some "failed" ∧
    post_notes plan2 !! 0 = Some "Error: boom" ∧
    ∃ self3,
      _get_current_post_info plain_format plain_list self2
        = (self3, Some (1, info_of (demo_post "two"))).
Proof.
  destruct (executor_error_fails_item_and_continues demo_run state demo_ask
              plain_format plain_list plain_storage plain_prompt
              1 (demo_flow demo_tool breaker) "" demo_plan 0 (demo_post "one")
              "manus" breaker breaker (RuntimeError "boom"))
    as (self2 & plan2 & Hloop & Hp & Hs & Hn & _ & Hnext);
    [done|reflexivity|split; reflexivity|apply (bool_decide_unpack (renderable demo_plan)); vm_compute; reflexivity
    |reflexivity|reflexivity|reflexivity|reflexivity|].
  exists self2, plan2. split; [exact Hloop|]. split; [exact Hp|].
  split; [exact Hs|]. split; [exact Hn|].
  apply (Hnext (demo_post "two")); [reflexivity|].
  unfold status_at, get_active_statuses. simpl. apply list_elem_of_here.
Defined.

(** * Further properties of the plan store *)

Section StoreInvariants.

Variable format_text : Plan → string.
Variable list_text : gmap string Plan → option string → string.

Local Abbreviation create := (_create_plan format_text).
Local Abbreviation update := (_update_plan format_text).
Local Abbreviation get := (_get_plan format_text).
Local Abbreviation set_active := (_set_active_plan format_text).
Local Abbreviation mark := (_mark_post format_text).
Local Abbreviation exec := (TwitterPlanningTool.execute format_text list_text).
Local Abbreviation ops_from_new ops := (run_ops format_text list_text ops new_tool).

Lemma tool_ok_store (t : Tool) (pid : string) (plan plan' : Plan) :
  tool_ok t → plans t !! pid = Some plan → plan_ok pid plan' →
  tool_ok (store_plan t pid plan').
Proof.
  intros [Hall Hptr] Hp Hok. split; simpl.
  - by apply map_Forall_insert_2.
  - intros q Hq. destruct (decide (pid = q)) as [->|Hne].
    + rewrite lookup_insert_eq. eauto.
    + rewrite lookup_insert_ne by done. by apply Hptr.
Qed.

Lemma merge_at_valid (old_posts : list Post) (old : list string) (i : nat) (post : Post) :
  Forall (λ s, s ∈ valid_statuses) old →
  merge_at old_posts old "draft" i post ∈ valid_statuses.
Proof.
  intros Hold. unfold merge_at. case_decide; [|apply list_elem_of_here].
  destruct (old !! i) as [s|] eqn:Hs; simpl; [|apply list_elem_of_here].
  rewrite Forall_lookup in Hold. by eapply Hold.
Qed.

Lemma create_ok (t : Tool) pid new_title new_posts :
  tool_ok t → tool_ok (create t pid new_title new_posts).1.
Proof.
  intros [Hall Hptr]. unfold _create_plan.
  destruct (truthy_str pid) as [id|] eqn:Hid; [|done].
  destruct (plans t !! id) eqn:Hp; [done|].
  destruct (truthy_str new_title) as [ti|] eqn:Hti; [|done].
  apply truthy_str_inv in Hti as [_ Hti].
  destruct new_posts as [[[|p ps]|b]|]; try done.
  rewrite reply_state. split; simpl.
  - apply map_Forall_insert_2; [|done].
    repeat split; simpl; [done|done|].
    constructor; [apply list_elem_of_here|].
    apply Forall_replicate, list_elem_of_here.
  - intros q [= <-]. rewrite lookup_insert_eq. eauto.
Qed.

Lemma update_ok (t : Tool) pid new_title new_posts :
  tool_wf t → tool_ok t → tool_ok (update t pid new_title new_posts).1.
Proof.
  intros Hwf Hok. unfold _update_plan.
  destruct (truthy_str pid) as [id|] eqn:Hid; [|done].
  destruct (plans t !! id) as [plan|] eqn:Hp; [|done].
  destruct (tool_wf_lookup _ _ _ Hwf Hp) as [[Hs Hn] Hne].
  fold (retitle plan new_title).
  assert (Hplan : plan_ok id (retitle plan new_title)).
  { destruct Hok as [Hall _]. destruct (Hall _ _ Hp) as (Hid' & Hti & Hps & Hst).
    unfold retitle. destruct (truthy_str new_title) as [ti|] eqn:Hnew; [|done].
    apply truthy_str_inv in Hnew as [_ Hnew]. done. }
  assert (Hs1 : length (post_statuses (retitle plan new_title)) =
                length (posts (retitle plan new_title))).
  { unfold retitle. by destruct (truthy_str new_title). }
  assert (Hn1 : length (post_notes (retitle plan new_title)) =
                length (posts (retitle plan new_title))).
  { unfold retitle. by destruct (truthy_str new_title). }
  destruct new_posts as [[[|p ps]|[]]|]; rewrite ?reply_state;
    [by eapply tool_ok_store| |by eapply tool_ok_store..].
  rewrite (update_loop_aligned _ _ _ Hs1 Hn1). rewrite reply_state.
  eapply tool_ok_store; [done..|].
  destruct Hplan as (Hid' & Hti & Hps & Hst).
  split; [done|]. split; [done|]. split; [done|].
  apply Forall_lookup. intros j s Hjs.
  unfold set_posts in Hjs. cbn [post_statuses app] in Hjs.
  rewrite list_lookup_imap in Hjs.
  destruct ((p :: ps) !! j) as [post|]; [|done].
  injection Hjs as <-. by apply merge_at_valid.
Qed.

Lemma mark_ok (t : Tool) pid post_index status notes :
  tool_ok t → tool_ok (mark t pid post_index status notes).1.
Proof.
  intros Hok.
  assert (Hset : ∀ id (plan : Plan) ss, plans t !! id = Some plan →
            Forall (λ s, s ∈ valid_statuses) ss →
            plan_ok id (set_statuses plan ss)).
  { intros id plan ss Hp Hss. destruct Hok as [Hall _].
    destruct (Hall _ _ Hp) as (Hid' & Hti & Hps & Hst). done. }
  assert (Hsame : ∀ id (plan : Plan), plans t !! id = Some plan → plan_ok id plan).
  { intros id plan Hp. destruct Hok as [Hall _]. by apply Hall. }
  unfold _mark_post.
  destruct (resolve t pid) as [id|]; [|done].
  destruct (plans t !! id) as [plan|] eqn:Hp; [|done].
  destruct post_index as [idx|]; [|done].
  case_decide; [done|].
  destruct (truthy_str status) as [st|].
  - case_decide as Hvalid; [|done].
    destruct (list_assign (post_statuses plan) (Z.to_nat idx) st) as [ss|] eqn:Hss; [|done].
    apply list_assign_lookup in Hss as [-> _].
    assert (Hnew : Forall (λ s, s ∈ valid_statuses)
                     (<[Z.to_nat idx := st]> (post_statuses plan))).
    { apply Forall_insert; [|done]. by destruct (Hsame _ _ Hp) as (_ & _ & _ & ?). }
    destruct (truthy_str notes) as [n|]; cbv beta iota zeta.
    + destruct (list_assign _ _ n) as [ns|]; cbv beta iota zeta; rewrite ?reply_state;
        eapply tool_ok_store; eauto; by apply (Hset id plan).
    + rewrite reply_state. eapply tool_ok_store; eauto.
  - destruct (truthy_str notes) as [n|]; [|by rewrite reply_state].
    destruct (list_assign _ _ n) as [ns|]; [|done].
    rewrite reply_state. eapply tool_ok_store; eauto. by apply (Hsame id plan).
Qed.

Lemma delete_ok (t : Tool) pid : tool_ok t → tool_ok (_delete_plan t pid).1.
Proof.
  intros [Hall Hptr]. unfold _delete_plan.
  destruct (truthy_str pid) as [id|]; [|done].
  destruct (plans t !! id); [|done].
  split; simpl.
  - by apply map_Forall_delete.
  - intros q. case_decide as Hcur; [done|].
    intros Hq. rewrite lookup_delete_ne by congruence. by apply Hptr.
Qed.

Lemma execute_ok (t : Tool) (a : Args) : tool_wf t → tool_ok t → tool_ok (exec t a).1.
Proof.
  intros Hwf Hok. unfold TwitterPlanningTool.execute.
  repeat case_decide; try done.
  - by apply create_ok.
  - by apply update_ok.
  - unfold _list_plans. by case_decide.
  - unfold _get_plan. destruct (resolve t (arg_plan_id a)); [|done].
    destruct (plans t !! _); [|done]. by rewrite reply_state.
  - unfold _set_active_plan. destruct (truthy_str (arg_plan_id a)) as [id|]; [|done].
    destruct (plans t !! id) eqn:Hp; [|done]. rewrite reply_state.
    destruct Hok as [Hall Hptr]. split; simpl; [done|].
    intros q [= <-]. eauto.
  - by apply mark_ok.
  - by apply delete_ok.
Qed.

Lemma run_ops_ok (ops : list Args) (t : Tool) :
  tool_wf t → tool_ok t → tool_ok (run_ops format_text list_text ops t).
Proof.
  revert t. induction ops as [|a ops IH]; intros t Hwf Hok; [done|].
  simpl. apply IH; [by apply execute_wf|by apply execute_ok].
Qed.

Lemma reachable_ok (ops : list Args) : tool_ok (ops_from_new ops).
Proof.
  apply run_ops_ok; [apply new_tool_wf|].
  split; [apply map_Forall_empty|done].
Qed.

(** X1: after any sequence of commands on a new tool, the active pointer,
    when it is set, names a plan that is stored. *)
Theorem active_pointer_names_stored_plan (ops : list Args) (pid : string) :
  _current_plan_id (ops_from_new ops) = Some pid →
  ∃ plan, plans (ops_from_new ops) !! pid = Some plan.
Proof. intros Hcur. destruct (reachable_ok ops) as [_ Hptr]. by apply Hptr. Qed.

(** X2: after any sequence of commands on a new tool, every status of every
    stored plan is one of draft, ready, posted and failed. *)
Theorem stored_statuses_are_valid (ops : list Args) (pid : string) (plan : Plan)
    (j : nat) (s : string) :
  plans (ops_from_new ops) !! pid = Some plan →
  post_statuses plan !! j = Some s →
  s ∈ valid_statuses.
Proof.
  intros Hp Hj. destruct (reachable_ok ops) as [Hall _].
  destruct (Hall _ _ Hp) as (_ & _ & _ & Hst).
  rewrite Forall_lookup in Hst. by eapply Hst.
Qed.

(** X3: after any sequence of commands on a new tool, every stored plan is
    stored under its own non-empty id, has a non-empty title and has at
    least one post. *)
Theorem stored_plans_are_named_and_nonempty (ops : list Args) (pid : string) (plan : Plan) :
  plans (ops_from_new ops) !! pid = Some plan →
  plan_id plan = pid ∧ pid ≠ "" ∧ title plan ≠ "" ∧ posts plan ≠ [].
Proof.
  intros Hp. destruct (reachable_ok ops) as [Hall _].
  destruct (Hall _ _ Hp) as (Hid & Hti & Hps & _).
  destruct (tool_wf_lookup _ _ _ (reachable_wf format_text list_text ops) Hp) as [_ Hne].
  done.
Qed.

End StoreInvariants.

Section StoreOperations.

Variable format_text : Plan → string.
Variable list_text : gmap string Plan → option string → string.

Local Abbreviation create := (_create_plan format_text).
Local Abbreviation update := (_update_plan format_text).
Local Abbreviation get := (_get_plan format_text).
Local Abbreviation set_active := (_set_active_plan format_text).
Local Abbreviation mark := (_mark_post format_text).
Local Abbreviation exec := (TwitterPlanningTool.execute format_text list_text).
Local Abbreviation ops_from_new ops := (run_ops format_text list_text ops new_tool).

Lemma reply_raise (t : Tool) (prefix : string) (plan : Plan) (e : Exception) :
  (reply format_text t prefix plan).2 = Raise e → e = KeyError "'content'".
Proof.
  unfold reply, _format_plan. case_decide; [done|]. by intros [= <-].
Qed.

Lemma create_raise_unchanged (t : Tool) pid new_title new_posts e :
  (create t pid new_title new_posts).2 = Raise e →
  e ≠ KeyError "'content'" →
  (create t pid new_title new_posts).1 = t.
Proof.
  unfold _create_plan.
  destruct (truthy_str pid) as [id|]; [|done].
  destruct (plans t !! id); [done|].
  destruct (truthy_str new_title); [|done].
  destruct new_posts as [[[|p ps]|b]|]; try done.
  intros Hraise Hkey. by apply reply_raise in Hraise.
Qed.

Lemma update_raise_unchanged (t : Tool) pid new_title new_posts e :
  tool_wf t →
  (update t pid new_title new_posts).2 = Raise e →
  e ≠ KeyError "'content'" →
  e ≠ ToolError "Parameter `posts` must be a list of post objects for command: update" →
  (update t pid new_title new_posts).1 = t.
Proof.
  intros Hwf. unfold _update_plan.
  destruct (truthy_str pid) as [id|]; [|done].
  destruct (plans t !! id) as [plan|] eqn:Hp; [|done].
  destruct (tool_wf_lookup _ _ _ Hwf Hp) as [[Hs Hn] Hne].
  fold (retitle plan new_title).
  assert (Hs1 : length (post_statuses (retitle plan new_title)) =
                length (posts (retitle plan new_title))).
  { unfold retitle. by destruct (truthy_str new_title). }
  assert (Hn1 : length (post_notes (retitle plan new_title)) =
                length (posts (retitle plan new_title))).
  { unfold retitle. by destruct (truthy_str new_title). }
  destruct new_posts as [[[|p ps]|[]]|];
    try (intros Hraise Hkey _; by apply reply_raise in Hraise).
  - rewrite (update_loop_aligned _ _ _ Hs1 Hn1).
    intros Hraise Hkey _. by apply reply_raise in Hraise.
  - by intros [= <-] _ Hlist.
Qed.

Lemma mark_raise_unchanged (t : Tool) pid post_index status notes e :
  tool_wf t →
  (mark t pid post_index status notes).2 = Raise e →
  e ≠ KeyError "'content'" →
  (mark t pid post_index status notes).1 = t.
Proof.
  intros Hwf. unfold _mark_post.
  destruct (resolve t pid) as [id|]; [|done].
  destruct (plans t !! id) as [plan|] eqn:Hp; [|done].
  destruct (tool_wf_lookup _ _ _ Hwf Hp) as [[Hs Hn] Hne].
  destruct post_index as [idx|]; [|done].
  case_decide as Hrange; [done|].
  destruct (truthy_str status) as [st|].
  - case_decide; [|done].
    destruct (list_assign (post_statuses plan) (Z.to_nat idx) st) as [ss|] eqn:Hss; [|done].
    destruct (truthy_str notes) as [n|]; cbv beta iota zeta.
    + unfold list_assign. simpl. rewrite decide_True by lia.
      intros Hraise Hkey. by apply reply_raise in Hraise.
    + intros Hraise Hkey. by apply reply_raise in Hraise.
  - destruct (truthy_str notes) as [n|].
    + destruct (list_assign _ _ n); [|done].
      intros Hraise Hkey. by apply reply_raise in Hraise.
    + intros Hraise Hkey. by apply reply_raise in Hraise.
Qed.

(** X4: on a store reached by any sequence of commands, a command that
    raises has changed nothing, whatever the command and its arguments are,
    unless the error is one of the two that are raised after a write: the
    KeyError of the rendering, and the error of [update] for posts that are
    not a list, which comes after the title was written. *)
Theorem rejected_command_changes_nothing (ops : list Args) (a : Args) (e : Exception) :
  (exec (ops_from_new ops) a).2 = Raise e →
  e ≠ KeyError "'content'" →
  e ≠ ToolError "Parameter `posts` must be a list of post objects for command: update" →
  (exec (ops_from_new ops) a).1 = ops_from_new ops.
Proof.
  pose proof (reachable_wf format_text list_text ops) as Hwf.
  unfold TwitterPlanningTool.execute. repeat case_decide; try done.
  - intros Hraise Hkey _. by apply (create_raise_unchanged _ _ _ _ e).
  - intros Hraise Hkey Hlist. by apply (update_raise_unchanged _ _ _ _ e).
  - unfold _list_plans. by case_decide.
  - intros _ _ _. apply get_plan_tool.
  - unfold _set_active_plan. destruct (truthy_str _); [|done].
    destruct (plans _ !! _); [|done].
    intros Hraise Hkey _. by apply reply_raise in Hraise.
  - intros Hraise Hkey _. by apply (mark_raise_unchanged _ _ _ _ _ e).
  - unfold _delete_plan. destruct (truthy_str _); [|done]. by destruct (plans _ !! _).
Qed.

(** X5: [create] with a fresh non-empty id, a non-empty title and at least
    one post stores the plan with every status draft and every note empty,
    leaves the other plans alone and makes the new plan the active one,
    also when the rendering that ends the call raises; [get] without an id
    then answers for exactly that plan: it changes nothing and returns the
    rendering of the plan, which is its text when every post has a content
    key and the KeyError of the rendering otherwise. *)
Theorem create_then_get_renders_new_plan (t : Tool) (pid new_title : string)
    (new_posts : list Post) :
  pid ≠ "" → plans t !! pid = None → new_title ≠ "" → new_posts ≠ [] →
  let plan := {| plan_id := pid; title := new_title; posts := new_posts;
                 post_statuses := replicate (length new_posts) "draft";
                 post_notes := replicate (length new_posts) "" |} in
  let t' := (create t (Some pid) (Some new_title) (Some (PostList new_posts))).1 in
  plans t' !! pid = Some plan ∧
  (∀ other, other ≠ pid → plans t' !! other = plans t !! other) ∧
  _current_plan_id t' = Some pid ∧
  get t' None =
    (t', if decide (Forall has_content new_posts)
         then Ok {| output := format_text plan |}
         else Raise (KeyError "'content'")).
Proof.
  intros Hpid Hfresh Htitle Hposts. simpl. unfold _create_plan.
  rewrite !truthy_str_Some by done. rewrite Hfresh.
  destruct new_posts as [|p ps]; [done|]. rewrite reply_state.
  split; [apply lookup_insert_eq|]. split.
  - intros other Hother. simpl. by rewrite lookup_insert_ne.
  - split; [done|]. unfold _get_plan, resolve. cbn [truthy_str _current_plan_id plans].
    rewrite decide_False by done. rewrite lookup_insert_eq.
    unfold reply, _format_plan, zipped_posts. cbn [posts post_statuses post_notes].
    rewrite !length_replicate, Nat.min_id, firstn_all.
    by destruct (decide (Forall has_content (p :: ps))).
Qed.

(** X6: [create] and then [delete] of the same fresh id give back the plans
    there were before, with no active plan left. *)
Theorem create_then_delete_restores_plans (t : Tool) (pid new_title : string)
    (new_posts : list Post) :
  pid ≠ "" → plans t !! pid = None → new_title ≠ "" → new_posts ≠ [] →
  let t' := (create t (Some pid) (Some new_title) (Some (PostList new_posts))).1 in
  plans (_delete_plan t' (Some pid)).1 = plans t ∧
  _current_plan_id (_delete_plan t' (Some pid)).1 = None.
Proof.
  intros Hpid Hfresh Htitle Hposts. simpl. unfold _create_plan.
  rewrite !truthy_str_Some by done. rewrite Hfresh.
  destruct new_posts as [|p ps]; [done|]. rewrite reply_state.
  unfold _delete_plan. rewrite truthy_str_Some by done.
  cbn [plans _current_plan_id]. rewrite lookup_insert_eq. cbn [fst plans _current_plan_id].
  split.
  - rewrite delete_insert_eq. by apply delete_id.
  - by rewrite decide_True.
Qed.

(** X7: [set_active] on a stored plan changes no plan and makes that plan
    the active one, also when the rendering that ends the call raises;
    [get] without an id then answers for that plan: it changes nothing and
    returns the rendering of the plan, which is its text or the KeyError of
    the rendering when a post it shows has no content key. *)
Theorem set_active_then_get_renders_plan (t : Tool) (pid : string) (plan : Plan) :
  pid ≠ "" → plans t !! pid = Some plan →
  let t' := (set_active t (Some pid)).1 in
  plans t' = plans t ∧ _current_plan_id t' = Some pid ∧
  get t' None =
    (t', match _format_plan format_text plan with
         | Ok text => Ok {| output := text |}
         | Raise e => Raise e
         end) ∧
  (renderable plan → get t' None = (t', Ok {| output := format_text plan |})).
Proof.
  intros Hpid Hp. simpl. unfold _set_active_plan.
  rewrite truthy_str_Some by done. rewrite Hp. rewrite reply_state.
  split; [done|]. split; [done|].
  unfold _get_plan, resolve. cbn [truthy_str _current_plan_id plans].
  rewrite decide_False by done. rewrite Hp. split.
  - unfold reply. by destruct (_format_plan format_text plan).
  - intros Hr. by rewrite reply_renderable.
Qed.

(** X8: [mark_post] with an index below zero or at or beyond the number of
    posts raises the index error and changes nothing, whatever status and
    note it is given; a negative index never counts from the end. *)
Theorem mark_post_rejects_index_out_of_range (t : Tool) (pid : string) (plan : Plan)
    (idx : Z) (status notes : option string) :
  pid ≠ "" → plans t !! pid = Some plan →
  (idx < 0 ∨ Z.of_nat (length (posts plan)) ≤ idx)%Z →
  mark t (Some pid) (Some idx) status notes
  = (t, Raise (IndexOutOfRange idx (length (posts plan)))).
Proof.
  intros Hpid Hp Hidx. unfold _mark_post, resolve.
  rewrite truthy_str_Some by done. rewrite Hp. by rewrite decide_True.
Qed.

(** X9: [mark_post] with a non-empty status outside the four accepted ones
    raises and changes nothing; a note given with it is not written. *)
Theorem mark_post_rejects_unknown_status (t : Tool) (pid : string) (plan : Plan)
    (idx : Z) (st : string) (notes : option string) :
  pid ≠ "" → plans t !! pid = Some plan →
  (0 ≤ idx < Z.of_nat (length (posts plan)))%Z →
  st ≠ "" → st ∉ valid_statuses →
  mark t (Some pid) (Some idx) (Some st) notes = (t, Raise (InvalidStatus st)).
Proof.
  intros Hpid Hp Hidx Hst Hbad. unfold _mark_post, resolve.
  rewrite !truthy_str_Some by done. rewrite Hp.
  rewrite decide_False by lia. by rewrite decide_False.
Qed.

(** X10: on a store reached by any sequence of commands, [mark_post] with an
    index of the plan and an accepted status writes the status: after the
    call the status at that index is the given one, the other statuses, the
    posts and the title are as before, the other plans and the active
    pointer are untouched.  The call returns its text when every post of
    the plan has a content key; otherwise the rendering raises after the
    write. *)
Theorem mark_post_sets_one_status (ops : list Args) (pid : string) (plan : Plan)
    (k : nat) (st : string) (notes : option string) :
  plans (ops_from_new ops) !! pid = Some plan →
  k < length (posts plan) → st ∈ valid_statuses →
  ∃ plan',
    (mark (ops_from_new ops) (Some pid) (Some (Z.of_nat k)) (Some st) notes).1
      = store_plan (ops_from_new ops) pid plan' ∧
    (mark (ops_from_new ops) (Some pid) (Some (Z.of_nat k)) (Some st) notes).2
      = (if decide (renderable plan)
         then Ok {| output := ("Post " +:+ pretty (Z.of_nat k) +:+ " updated in plan '"
                               +:+ pid +:+ "'.

") +:+ format_text plan' |}
         else Raise (KeyError "'content'")) ∧
    post_statuses plan' !! k = Some st ∧
    (∀ j, j ≠ k → post_statuses plan' !! j = post_statuses plan !! j) ∧
    (∀ j, j ≠ k → post_notes plan' !! j = post_notes plan !! j) ∧
    posts plan' = posts plan ∧ title plan' = title plan.
Proof.
  intros Hp Hk Hvalid.
  destruct (tool_wf_lookup _ _ _ (reachable_wf format_text list_text ops) Hp)
    as [[Hs Hn] Hne].
  assert (Hst : st ≠ "").
  { intros ->. unfold valid_statuses in Hvalid.
    repeat (apply elem_of_cons in Hvalid as [Hvalid|Hvalid]; [done|]).
    by apply elem_of_nil in Hvalid. }
  unfold _mark_post, resolve.
  rewrite !truthy_str_Some by done. rewrite Hp.
  rewrite decide_False by lia. rewrite decide_True by done.
  rewrite Nat2Z.id. unfold list_assign. rewrite decide_True by lia.
  assert (Hrender : ∀ (t : Tool) prefix (plan' : Plan),
            posts plan' = posts plan →
            length (post_statuses plan') = length (posts plan) →
            length (post_notes plan') = length (posts plan) →
            (reply format_text t prefix plan').2
            = if decide (renderable plan)
              then Ok {| output := prefix +:+ format_text plan' |}
              else Raise (KeyError "'content'")).
  { intros t prefix plan' Hposts Hs' Hn'. unfold reply, _format_plan, zipped_posts, renderable.
    rewrite Hs', Hn', Nat.min_id, Hposts, firstn_all.
    by destruct (decide (Forall has_content (posts plan))). }
  destruct (truthy_str notes) as [n|].
  - simpl. rewrite decide_True by lia.
    eexists. split; [apply reply_state|].
    split; [apply Hrender; simpl; rewrite ?length_insert; done|]. simpl.
    split; [apply list_lookup_insert_eq; lia|].
    split; [intros j Hj; by apply list_lookup_insert_ne|].
    split; [intros j Hj; by apply list_lookup_insert_ne|done].
  - cbv beta iota zeta. eexists. split; [apply reply_state|].
    split; [apply Hrender; simpl; rewrite ?length_insert; done|]. simpl.
    split; [apply list_lookup_insert_eq; lia|].
    split; [intros j Hj; by apply list_lookup_insert_ne|done].
Qed.

(** X11: on a store reached by any sequence of commands, [update] with the
    posts a plan already has (and no title) changes nothing at all: every
    status and note is kept. *)
Theorem update_with_same_posts_changes_nothing (ops : list Args) (pid : string)
    (plan : Plan) :
  plans (ops_from_new ops) !! pid = Some plan →
  (update (ops_from_new ops) (Some pid) None (Some (PostList (posts plan)))).1
  = ops_from_new ops.
Proof.
  intros Hp.
  destruct (tool_wf_lookup _ _ _ (reachable_wf format_text list_text ops) Hp)
    as [Hwf Hne].
  destruct (reachable_ok format_text list_text ops) as [Hall _].
  destruct (Hall _ _ Hp) as (_ & _ & Hps & _).
  rewrite (update_posts_result format_text _ _ _ None _ Hne Hp Hwf Hps).
  unfold retitle. cbn [truthy_str].
  assert (Hsame : merged plan (posts plan) = plan).
  { destruct Hwf as [Hs Hn]. unfold merged, set_posts. destruct plan as [i ti ps ss ns].
    simpl in *. f_equal.
    - apply list_eq. intros j. rewrite list_lookup_imap. unfold merge_at.
      destruct (ps !! j) as [post|] eqn:Hj; simpl.
      + rewrite decide_True by done.
        destruct (lookup_lt_is_Some_2 ss j) as [s Hsj];
          [apply lookup_lt_Some in Hj; lia|]. by rewrite Hsj.
      + symmetry. apply lookup_ge_None. apply lookup_ge_None in Hj. lia.
    - apply list_eq. intros j. rewrite list_lookup_imap. unfold merge_at.
      destruct (ps !! j) as [post|] eqn:Hj; simpl.
      + rewrite decide_True by done.
        destruct (lookup_lt_is_Some_2 ns j) as [n Hnj];
          [apply lookup_lt_Some in Hj; lia|]. by rewrite Hnj.
      + symmetry. apply lookup_ge_None. apply lookup_ge_None in Hj. lia. }
  rewrite Hsame. unfold store_plan. rewrite insert_id by done.
  by destruct (run_ops _ _ _ _).
Qed.

(** X12: [update] that gives no posts, or the empty list, keeps the posts,
    the statuses and the notes of the plan; an empty list does not clear
    the plan. *)
Theorem update_without_posts_keeps_items (t : Tool) (pid : string) (plan : Plan)
    (new_title : option string) (new_posts : option PostsArg) :
  pid ≠ "" → plans t !! pid = Some plan →
  new_posts = None ∨ new_posts = Some (PostList []) →
  ∃ plan',
    plans (update t (Some pid) new_title new_posts).1 !! pid = Some plan' ∧
    posts plan' = posts plan ∧ post_statuses plan' = post_statuses plan ∧
    post_notes plan' = post_notes plan.
Proof.
  intros Hpid Hp Hnone. unfold _update_plan.
  rewrite truthy_str_Some by done. rewrite Hp.
  fold (retitle plan new_title).
  exists (retitle plan new_title).
  split.
  - destruct Hnone as [-> | ->]; rewrite reply_state; apply lookup_insert_eq.
  - unfold retitle. by destruct (truthy_str new_title).
Qed.

(** X30: [create] writes before it renders: with a fresh non-empty id, a
    non-empty title and posts of which one has no content key, the call
    raises the KeyError of the rendering, and the plan is stored and active
    all the same. *)
Theorem create_stores_plan_before_rendering (t : Tool) (pid new_title : string)
    (new_posts : list Post) :
  pid ≠ "" → plans t !! pid = None → new_title ≠ "" →
  ¬ Forall has_content new_posts →
  create t (Some pid) (Some new_title) (Some (PostList new_posts))
  = ({| plans := <[pid := {| plan_id := pid; title := new_title; posts := new_posts;
                             post_statuses := replicate (length new_posts) "draft";
                             post_notes := replicate (length new_posts) "" |}]> (plans t);
        _current_plan_id := Some pid |},
     Raise (KeyError "'content'")).
Proof.
  intros Hpid Hfresh Htitle Hbare. unfold _create_plan.
  rewrite !truthy_str_Some by done. rewrite Hfresh.
  destruct new_posts as [|p ps]; [by destruct Hbare|].
  unfold reply, _format_plan, zipped_posts. cbn [posts post_statuses post_notes].
  rewrite !length_replicate, Nat.min_id, firstn_all.
  by rewrite decide_False.
Qed.

End StoreOperations.

(** * Further properties of the execution loop *)

Section FlowSteps.

Context {Agent LLM : Type}.
Variable agent_run : Agent → string → Agent * Result string.
Variable agent_state : Agent → AgentState.
Variable llm_ask : LLM → string → string → LLM * Result string.
Variable llm_ask_tool : LLM → string → string → LLM * Result (list ToolCall).
Variable format_text : Plan → string.
Variable list_text : gmap string Plan → option string → string.
Variable storage_text : string → Plan → string.
Variable post_prompt_text : string → option nat → Post → string.

Local Abbreviation Flow := (@Flow Agent LLM).
Local Abbreviation texec := (tool_execute format_text list_text).
Local Abbreviation current_info := (_get_current_post_info format_text list_text).
Local Abbreviation storage_plan_text := (_generate_plan_text_from_storage storage_text).
Local Abbreviation mark_posted := (_mark_post_posted format_text list_text).
Local Abbreviation finalize :=
  (_finalize_plan agent_run llm_ask format_text list_text storage_text).

Lemma first_executor_registered (ag : gmap string Agent) (keys : list string) (key : string) :
  first_executor ag keys = Some key → is_Some (ag !! key).
Proof.
  induction keys as [|k keys IH]; simpl; [done|].
  case_decide; [by intros [= <-]|done].
Qed.

(** X13: when the flow has a primary agent, [get_executor] returns, for any
    post type, the key of an agent that is registered in the flow; it never
    comes back empty-handed. *)
Theorem get_executor_returns_registered_agent (self : Flow) (post_type : option string)
    (k : string) :
  primary_agent self = Some k →
  ∃ key a, get_executor self post_type = Some key ∧ agents self !! key = Some a.
Proof.
  intros Hprim.
  assert (Hk : is_Some (agents self !! k)).
  { unfold primary_agent in Hprim. destruct (primary_agent_key self) as [k'|]; [|done].
    case_decide; [|done]. by injection Hprim as <-. }
  assert (Hfall : ∃ key a,
            match first_executor (agents self) (executor_keys self) with
            | Some key => Some key
            | None => primary_agent self
            end = Some key ∧ agents self !! key = Some a).
  { destruct (first_executor _ _) as [key|] eqn:Hfirst.
    - destruct (first_executor_registered _ _ _ Hfirst) as [a Ha]. eauto.
    - destruct Hk as [a Ha]. rewrite Hprim. eauto. }
  unfold get_executor. destruct (truthy_str post_type) as [ty|]; [|done].
  case_decide as Hty; [|done]. destruct Hty as [a Ha]. eauto.
Qed.

Lemma find_active_None (ss : list string) (ps : list Post) :
  ∀ (i : nat), find_active ss i ps = None →
    ∀ j, i ≤ j < i + length ps → status_at ss j ∉ get_active_statuses.
Proof.
  induction ps as [|p ps IH]; intros i; simpl; [intros _ j Hj; lia|].
  rewrite status_at_scan. case_decide as Hact; [done|].
  intros Hfind j Hj. destruct (decide (j = i)) as [->|Hne]; [done|].
  apply (IH _ Hfind). lia.
Qed.

(** X14: the post [_get_current_post_info] selects is the first one whose
    status is draft or ready, a missing status counting as draft: no post
    before it is active, so a posted or failed post is never selected. *)
Theorem selection_is_first_active_post (self self1 : Flow) (i : nat) (info : Post) :
  current_info self = (self1, Some (i, info)) →
  ∃ plan post,
    plans (twitter_planning_tool self) !! active_plan_id self = Some plan ∧
    posts plan !! i = Some post ∧ info = info_of post ∧
    status_at (post_statuses plan) i ∈ get_active_statuses ∧
    ∀ j, j < i → status_at (post_statuses plan) j ∉ get_active_statuses.
Proof.
  unfold _get_current_post_info. case_decide; [done|].
  destruct (plans _ !! _) as [plan|] eqn:Hp; [|done].
  destruct (find_active _ _ _) as [[k post]|] eqn:Hfind; [|done].
  intros Hsel.
  assert (Hki : k = i ∧ info_of post = info).
  { destruct (texec _ _) as [tool1 [r|e]]; [by injection Hsel as _ <- <-|].
    destruct (plans tool1 !! _); by injection Hsel as _ <- <-. }
  destruct Hki as [-> <-].
  destruct (find_active_Some _ _ _ _ _ Hfind) as (_ & Hlook & Hact & Hbefore).
  rewrite Nat.sub_0_r in Hlook.
  exists plan, post. repeat split; [done..|]. intros j Hj. apply Hbefore. lia.
Qed.

(** X15: when a plan is stored under the flow's plan id and
    [_get_current_post_info] selects nothing, no post of the plan is draft
    or ready, and the flow is left as it was. *)
Theorem no_selection_means_no_active_post (self self1 : Flow) (plan : Plan) :
  active_plan_id self ≠ "" →
  plans (twitter_planning_tool self) !! active_plan_id self = Some plan →
  current_info self = (self1, None) →
  self1 = self ∧
  ∀ j, j < length (posts plan) → status_at (post_statuses plan) j ∉ get_active_statuses.
Proof.
  intros Hne Hp. unfold _get_current_post_info.
  rewrite decide_False by done. rewrite Hp.
  destruct (find_active _ _ _) as [[k post]|] eqn:Hfind.
  - destruct (texec _ _) as [tool1 [r|e]]; [done|]. by destruct (plans tool1 !! _).
  - intros [= <-]. split; [done|]. intros j Hj.
    apply (find_active_None _ _ _ Hfind). lia.
Qed.

Lemma pad_length_le (l : list string) (n : nat) (x : string) :
  length l ≤ n → length (pad l n x) = n.
Proof. intros Hle. unfold pad. rewrite length_app, length_replicate. lia. Qed.

Lemma pad_lookup_old (l : list string) (n : nat) (x : string) (j : nat) :
  j < length l → pad l n x !! j = l !! j.
Proof. intros Hj. unfold pad. by rewrite lookup_app_l. Qed.

Lemma fix_ready_lookup (ss : list string) (i : nat) :
  fix_ready ss i !! i = Some (value READY) ∧
  ∀ j, j ≠ i → j < length ss → fix_ready ss i !! j = ss !! j.
Proof.
  unfold fix_ready. case_decide as Hi.
  - split; [by apply list_lookup_insert_eq|].
    intros j Hj _. by apply list_lookup_insert_ne.
  - assert (Hlen : length (pad ss i (value DRAFT)) = i) by (apply pad_length_le; lia).
    split.
    + rewrite lookup_app_r by lia. by rewrite Hlen, Nat.sub_diag.
    + intros j Hj Hlt. rewrite lookup_app_l by lia. by apply pad_lookup_old.
Qed.

(** X16: after [_get_current_post_info] has selected a post, the status of
    that post in the store is ready, whether the tool accepted the mark or
    the correction in memory was made; the statuses of the other posts, the
    posts and the notes are as before. *)
Theorem selected_post_is_marked_ready (self self1 : Flow) (plan : Plan) (i : nat)
    (info : Post) :
  plans (twitter_planning_tool self) !! active_plan_id self = Some plan →
  current_info self = (self1, Some (i, info)) →
  ∃ plan1,
    plans (twitter_planning_tool self1) !! active_plan_id self = Some plan1 ∧
    post_statuses plan1 !! i = Some (value READY) ∧
    (∀ j, j ≠ i → j < length (post_statuses plan) →
          post_statuses plan1 !! j = post_statuses plan !! j) ∧
    posts plan1 = posts plan ∧ post_notes plan1 = post_notes plan.
Proof.
  intros Hp. unfold _get_current_post_info. case_decide as Hne; [done|]. rewrite Hp.
  destruct (find_active _ _ _) as [[k post]|] eqn:Hfind; [|done].
  destruct (find_active_Some _ _ _ _ _ Hfind) as (_ & Hlook & _).
  apply lookup_lt_Some in Hlook.
  rewrite texec_mark. unfold _mark_post, resolve.
  rewrite truthy_str_Some by done. rewrite Hp.
  change (Z.of_nat <$> Some k) with (Some (Z.of_nat k)). cbv beta iota.
  rewrite decide_False by lia.
  rewrite value_truthy. rewrite decide_True by apply value_valid.
  rewrite Nat2Z.id. unfold list_assign. cbn [truthy_str].
  destruct (decide (k < length (post_statuses plan))) as [Hk|Hk].
  - cbv beta iota zeta.
    match goal with
    | |- context [reply ?f ?t ?prefix ?pl] =>
        pose proof (reply_state f t prefix pl) as Hstate;
        destruct (reply f t prefix pl) as [tool1 [r|e]]
    end; simpl in Hstate; subst tool1.
    + intros [= <- <- _]. eexists. split; [apply lookup_insert_eq|]. simpl.
      split; [by apply list_lookup_insert_eq|].
      split; [intros j Hj _; by apply list_lookup_insert_ne|done].
    + cbn [plans store_plan]. rewrite lookup_insert_eq.
      intros [= <- <- _]. eexists. split; [apply lookup_insert_eq|]. simpl.
      destruct (fix_ready_lookup (<[k := value READY]> (post_statuses plan)) k)
        as [Hat Hother].
      split; [done|]. split; [|done].
      intros j Hj Hlt. rewrite Hother by (rewrite ?length_insert; done).
      by apply list_lookup_insert_ne.
  - rewrite Hp. intros [= <- <- _]. eexists. split; [apply lookup_insert_eq|]. simpl.
    destruct (fix_ready_lookup (post_statuses plan) k) as [Hat Hother]. done.
Qed.



End FlowSteps.

Section FlowRuns.

Context {Agent LLM : Type}.
Variable agent_run : Agent → string → Agent * Result string.
Variable agent_state : Agent → AgentState.
Variable llm_ask : LLM → string → string → LLM * Result string.
Variable llm_ask_tool : LLM → string → string → LLM * Result (list ToolCall).
Variable format_text : Plan → string.
Variable list_text : gmap string Plan → option string → string.
Variable storage_text : string → Plan → string.
Variable post_prompt_text : string → option nat → Post → string.

Local Abbreviation Flow := (@Flow Agent LLM).
Local Abbreviation texec := (tool_execute format_text list_text).
Local Abbreviation current_info := (_get_current_post_info format_text list_text).
Local Abbreviation plan_text := (_get_plan_text format_text list_text storage_text).
Local Abbreviation storage_plan_text := (_generate_plan_text_from_storage storage_text).
Local Abbreviation mark_posted := (_mark_post_posted format_text list_text).
Local Abbreviation execute_post :=
  (_execute_post agent_run format_text list_text storage_text post_prompt_text).
Local Abbreviation finalize :=
  (_finalize_plan agent_run llm_ask format_text list_text storage_text).
Local Abbreviation finished := (executor_finished agent_state).
Local Abbreviation loop :=
  (execute_loop agent_run agent_state llm_ask format_text list_text storage_text
     post_prompt_text).
Local Abbreviation initial_plan :=
  (_create_initial_plan llm_ask_tool format_text list_text).
Local Abbreviation tool_calls := (process_tool_calls format_text list_text).
Local Abbreviation run :=
  (execute agent_run agent_state llm_ask llm_ask_tool format_text list_text storage_text
     post_prompt_text).

(** X18: [_generate_plan_text_from_storage] changes the stored plan while it
    renders it: statuses and notes are filled up to the number of posts,
    the entries there were stay, and an aligned plan is left as it is. *)
Theorem storage_text_pads_status_and_note_lists (self : Flow) (plan : Plan) :
  plans (twitter_planning_tool self) !! active_plan_id self = Some plan →
  ∃ plan1,
    plans (twitter_planning_tool (storage_plan_text self).1) !! active_plan_id self
      = Some plan1 ∧
    (storage_plan_text self).2 = storage_text (active_plan_id self) plan1 ∧
    posts plan1 = posts plan ∧
    length (posts plan) ≤ length (post_statuses plan1) ∧
    length (posts plan) ≤ length (post_notes plan1) ∧
    (∀ j, j < length (post_statuses plan) →
          post_statuses plan1 !! j = post_statuses plan !! j) ∧
    (∀ j, j < length (post_notes plan) → post_notes plan1 !! j = post_notes plan !! j) ∧
    (plan_wf plan → plan1 = plan).
Proof.
  intros Hp. unfold _generate_plan_text_from_storage. rewrite Hp. simpl.
  eexists. split; [apply lookup_insert_eq|]. split; [done|]. split; [done|]. simpl.
  split; [unfold pad; rewrite length_app, length_replicate; lia|].
  split; [unfold pad; rewrite length_app, length_replicate; lia|].
  split; [intros j Hj; by apply pad_lookup_old|].
  split; [intros j Hj; by apply pad_lookup_old|].
  intros [Hs Hn]. unfold pad. rewrite Hs, Hn, Nat.sub_diag. simpl.
  rewrite !app_nil_r. by destruct plan.
Qed.

(** X19: [_finalize_plan] always returns a text that begins with "Twitter
    campaign plan completed", whether the language model answers, or it
    raises and the primary agent answers, or both raise or there is no
    primary agent. *)
Theorem finalize_always_reports_completion (self : Flow) :
  ∃ rest, (finalize self).2 = "Twitter campaign plan completed" +:+ rest.
Proof.
  unfold _finalize_plan.
  destruct (plan_text self) as [self1 text].
  destruct (llm_ask _ _ _) as [llm1 [response|e]]; [by eexists|].
  destruct (run_agent _ _ _ _) as [self2 [summary|e2]]; by eexists.
Qed.

Lemma run_agent_frame (self : Flow) executor prompt :
  twitter_planning_tool (run_agent agent_run self executor prompt).1
    = twitter_planning_tool self ∧
  active_plan_id (run_agent agent_run self executor prompt).1 = active_plan_id self ∧
  current_post_index (run_agent agent_run self executor prompt).1 = current_post_index self.
Proof.
  unfold run_agent. destruct executor as [k|]; [|done].
  destruct (agents self !! k) as [a|]; [|done].
  by destruct (agent_run a prompt).
Qed.

Lemma marked_statuses (plan : Plan) (k : nat) (st : string) (notes : option string) :
  post_statuses (marked plan k st notes) = <[k := st]> (post_statuses plan).
Proof. unfold marked. by destruct (truthy_str notes). Qed.

Lemma marked_posts (plan : Plan) (k : nat) (st : string) (notes : option string) :
  posts (marked plan k st notes) = posts plan.
Proof. unfold marked. by destruct (truthy_str notes). Qed.

(** On an aligned plan all of whose posts have a content key
    [_execute_post] returns, and the post it ran is posted or failed
    afterwards. *)
Lemma execute_post_aligned (self : Flow) (plan : Plan) (k : nat) (info : Post)
    (executor : option string) :
  active_plan_id self ≠ "" →
  plans (twitter_planning_tool self) !! active_plan_id self = Some plan →
  plan_wf plan → renderable plan → k < length (posts plan) →
  current_post_index self = Some k →
  ∃ self2 text st notes,
    execute_post self executor info = (self2, Ok text) ∧
    active_plan_id self2 = active_plan_id self ∧
    plans (twitter_planning_tool self2) !! active_plan_id self
      = Some (marked plan k st notes) ∧
    (st ∉ get_active_statuses) ∧
    (st = value POSTED ∨ st = value FAILED).
Proof.
  intros Hne Hp Hwf Hr Hk Hidx. unfold _execute_post.
  rewrite (plan_text_present format_text list_text storage_text self plan Hne Hp Hr).
  destruct (run_agent_frame self executor
              (post_prompt_text (format_text plan) (current_post_index self) info))
    as (Htool & Hact & Hcur).
  destruct (run_agent _ _ _ _) as [self2 [post_result|e]]; simpl in Htool, Hact, Hcur.
  - unfold _mark_post_posted. rewrite Hcur, Hidx, Hact.
    rewrite texec_mark, Htool.
    destruct (mark_post_ok format_text (twitter_planning_tool self) _ plan k POSTED None
                Hne Hp Hwf Hr Hk) as [out Hout].
    simpl in Hout. simpl. rewrite Hout.
    eexists _, _, (value POSTED), None. split; [reflexivity|].
    split; [done|]. split; [apply lookup_insert_eq|]. split; [|by left].
    unfold get_active_statuses. simpl.
    rewrite !not_elem_of_cons. repeat split; try done. apply not_elem_of_nil.
  - rewrite texec_mark, Htool, Hact, Hcur, Hidx.
    destruct (mark_post_ok format_text (twitter_planning_tool self) _ plan k FAILED
                (Some ("Error: " +:+ str e)) Hne Hp Hwf Hr Hk) as [out Hout].
    simpl in Hout. simpl. rewrite Hout.
    eexists _, _, (value FAILED), _. split; [reflexivity|].
    split; [done|]. split; [apply lookup_insert_eq|]. split; [|by right].
    unfold get_active_statuses. simpl.
    rewrite !not_elem_of_cons. repeat split; try done. apply not_elem_of_nil.
Qed.

(** What [_execute_post] does when the executor returns, the plan is
    aligned and every post of it has a content key: the post is marked
    posted and the text of the executor is returned. *)
Lemma execute_post_return (self : Flow) (plan : Plan) (k : nat) (post_info : Post)
    (key : string) (a a' : Agent) (text : string) :
  active_plan_id self ≠ "" →
  plans (twitter_planning_tool self) !! active_plan_id self = Some plan →
  plan_wf plan → renderable plan → k < length (posts plan) →
  current_post_index self = Some k →
  agents self !! key = Some a →
  agent_run a (post_prompt_text (format_text plan) (Some k) post_info) = (a', Ok text) →
  execute_post self (Some key) post_info =
    (with_tool (with_agents self (<[key := a']> (agents self)))
       (store_plan (twitter_planning_tool self) (active_plan_id self)
          (marked plan k (value POSTED) None)),
     Ok text).
Proof.
  intros Hne Hp Hwf Hr Hk Hidx Ha Hrun. unfold _execute_post.
  rewrite (plan_text_present format_text list_text storage_text self plan Hne Hp Hr).
  rewrite Hidx. unfold run_agent. rewrite Ha, Hrun.
  unfold _mark_post_posted. cbn [current_post_index with_agents]. rewrite Hidx.
  rewrite texec_mark. cbn [twitter_planning_tool active_plan_id with_agents].
  destruct (mark_post_ok format_text (twitter_planning_tool self) _ plan k POSTED None
              Hne Hp Hwf Hr Hk) as [out Hout].
  simpl in Hout. simpl. by rewrite Hout.
Qed.

(** X29: when the plan is aligned, every post of it has a content key, and
    the executor returns a text on the post the loop selected, that
    executor has been run on the prompt of that post: its state after the
    run is the one kept in the flow, the post is marked posted, its note
    and the other statuses are as before, and the text it returned, with a
    newline, is added to the result.  The loop then returns at once when
    the executor is in state FINISHED and goes on otherwise. *)
Theorem executor_success_posts_item (fuel : nat) (self : Flow) (result : string)
    (plan : Plan) (k : nat) (post : Post) (key : string) (a a' : Agent)
    (text : string) :
  active_plan_id self ≠ "" →
  plans (twitter_planning_tool self) !! active_plan_id self = Some plan →
  plan_wf plan →
  renderable plan →
  find_active (post_statuses plan) 0 (posts plan) = Some (k, post) →
  get_executor self (post_type_of (info_of post)) = Some key →
  agents self !! key = Some a →
  agent_run a (post_prompt_text (format_text (marked plan k (value READY) None))
                 (Some k) (info_of post)) = (a', Ok text) →
  ∃ (self2 : Flow) (plan2 : Plan),
    loop (S fuel) self result =
      (if bool_decide (agent_state a' = FINISHED)
       then Some (self2, Ok (result +:+ text +:+ "
"))
       else loop fuel self2 (result +:+ text +:+ "
")) ∧
    agents self2 !! key = Some a' ∧
    plans (twitter_planning_tool self2) !! active_plan_id self = Some plan2 ∧
    post_statuses plan2 !! k = Some (value POSTED) ∧
    (∀ j, j ≠ k → post_statuses plan2 !! j = post_statuses plan !! j) ∧
    post_notes plan2 = post_notes plan ∧
    posts plan2 = posts plan.
Proof.
  intros Hne Hp Hwf Hr Hfind Hex Ha Hrun.
  destruct (find_active_Some _ _ _ _ _ Hfind) as (_ & Hlook & _).
  rewrite Nat.sub_0_r in Hlook.
  assert (Hk : k < length (posts plan)) by (by eapply lookup_lt_Some).
  set (plan1 := marked plan k (value READY) None).
  set (tool1 := store_plan (twitter_planning_tool self) (active_plan_id self) plan1).
  set (self1 := with_index (with_tool self tool1) (Some k)).
  assert (Hwf1 : plan_wf plan1) by (by apply marked_wf).
  assert (Hr1 : renderable plan1) by (by apply marked_renderable).
  assert (Hp1 : plans (twitter_planning_tool self1) !! active_plan_id self1 = Some plan1).
  { simpl. apply lookup_insert_eq. }
  pose proof (execute_post_return self1 plan1 k (info_of post) key a a' text
                Hne Hp1 Hwf1 Hr1 Hk eq_refl Ha Hrun) as Hpost.
  set (plan2 := marked plan1 k (value POSTED) None) in *.
  set (self2 := with_tool (with_agents self1 (<[key := a']> (agents self1)))
                  (store_plan (twitter_planning_tool self1) (active_plan_id self1) plan2)) in *.
  destruct Hwf as [Hs Hn].
  exists self2, plan2. split; [|split; [|split; [|split; [|split; [|split]]]]].
  - cbn [execute_loop].
    rewrite (current_info_wf format_text list_text self plan k post Hne Hp
               (conj Hs Hn) Hr Hfind).
    fold plan1. fold tool1. fold self1.
    replace (get_executor self1 (post_type_of (info_of post))) with (Some key)
      by (symmetry; exact Hex).
    rewrite Hpost.
    assert (Hfin : finished self2 (Some key) = bool_decide (agent_state a' = FINISHED)).
    { unfold executor_finished. simpl. by rewrite lookup_insert_eq. }
    rewrite Hfin. by destruct (bool_decide (agent_state a' = FINISHED)).
  - simpl. apply lookup_insert_eq.
  - simpl. apply lookup_insert_eq.
  - unfold plan2, plan1, marked. simpl. rewrite list_lookup_insert_eq; [done|].
    rewrite length_insert. lia.
  - intros j Hj. unfold plan2, plan1, marked. simpl.
    by rewrite !list_lookup_insert_ne.
  - done.
  - done.
Qed.

Lemma active_count_settled (ss : list string) (k : nat) (st : string) :
  k < length ss → status_at ss k ∈ get_active_statuses → st ∉ get_active_statuses →
  active_count (<[k := st]> ss) < active_count ss.
Proof.
  intros Hk Hact Hst.
  destruct (lookup_lt_is_Some_2 ss k Hk) as [x Hx].
  unfold status_at in Hact. rewrite Hx in Hact. simpl in Hact.
  rewrite insert_take_drop by done.
  rewrite <- (take_drop_middle ss k x Hx) at 3.
  unfold active_count. rewrite !filter_app, !filter_cons.
  rewrite decide_False by done. rewrite decide_True by done.
  rewrite !length_app. simpl. lia.
Qed.

Lemma loop_returns_within (n : nat) :
  ∀ (self : Flow) (result : string) (plan : Plan),
    active_plan_id self ≠ "" →
    plans (twitter_planning_tool self) !! active_plan_id self = Some plan →
    plan_wf plan → renderable plan → active_count (post_statuses plan) ≤ n →
    ∃ self' text, loop (S n) self result = Some (self', Ok text).
Proof.
  induction n as [|n IH]; intros self result plan Hne Hp Hwf Hr Hcount.
  - destruct (find_active (post_statuses plan) 0 (posts plan)) as [[k post]|] eqn:Hfind.
    + destruct (find_active_Some _ _ _ _ _ Hfind) as (_ & Hlook & Hact & _).
      apply lookup_lt_Some in Hlook. destruct Hwf as [Hs Hn].
      pose proof (active_count_settled (post_statuses plan) k "posted") as Hlt.
      assert (active_count (<[k := "posted"]> (post_statuses plan))
              < active_count (post_statuses plan)); [|lia].
      apply Hlt; [lia|done|].
      unfold get_active_statuses. simpl.
      rewrite !not_elem_of_cons. repeat split; try done. apply not_elem_of_nil.
    + simpl. unfold _get_current_post_info.
      rewrite decide_False by done. rewrite Hp, Hfind.
      destruct (finalize _) as [self2 summary]. eauto.
  - destruct (find_active (post_statuses plan) 0 (posts plan)) as [[k post]|] eqn:Hfind.
    + destruct (find_active_Some _ _ _ _ _ Hfind) as (_ & Hlook & Hact & _).
      apply lookup_lt_Some in Hlook. rewrite Nat.sub_0_r in Hlook.
      cbn [execute_loop].
      rewrite (current_info_wf format_text list_text self plan k post Hne Hp Hwf Hr Hfind).
      set (plan1 := marked plan k (value READY) None).
      set (self1 := with_index (with_tool self _) (Some k)).
      assert (Hwf1 : plan_wf plan1) by (by apply marked_wf).
      assert (Hr1 : renderable plan1) by (by apply marked_renderable).
      assert (Hp1 : plans (twitter_planning_tool self1) !! active_plan_id self1
                    = Some plan1) by (simpl; apply lookup_insert_eq).
      assert (Hk1 : k < length (posts plan1)) by (unfold plan1; by rewrite marked_posts).
      destruct (execute_post_aligned self1 plan1 k (info_of post)
                  (get_executor self1 (post_type_of (info_of post)))
                  Hne Hp1 Hwf1 Hr1 Hk1 eq_refl)
        as (self2 & text & st & notes & Hpost & Hact2 & Hp2 & Hst & _).
      rewrite Hpost. destruct (finished self2 _); [eauto|].
      apply (IH self2 _ (marked plan1 k st notes)).
      * by rewrite Hact2.
      * by rewrite Hact2.
      * by apply marked_wf.
      * by apply marked_renderable.
      * rewrite marked_statuses. unfold plan1. rewrite marked_statuses.
        rewrite list_insert_insert_eq.
        destruct Hwf as [Hs Hn].
        pose proof (active_count_settled (post_statuses plan) k st) as Hlt.
        assert (active_count (<[k := st]> (post_statuses plan))
                < active_count (post_statuses plan)); [|lia].
        apply Hlt; [lia|done|done].
    + cbn [execute_loop]. unfold _get_current_post_info.
      rewrite decide_False by done. rewrite Hp, Hfind.
      destruct (finalize _) as [self2 summary]. eauto.
Qed.

(** X20: on a plan whose lists are aligned and whose posts all have a
    content key, the loop returns normally after at most one iteration per
    active post and one more to finalize: with more fuel than there are
    active posts the result is a text, never an exception and never a loop
    still running. *)
Theorem loop_terminates_on_aligned_plan (fuel : nat) (self : Flow) (result : string)
    (plan : Plan) :
  active_plan_id self ≠ "" →
  plans (twitter_planning_tool self) !! active_plan_id self = Some plan →
  plan_wf plan →
  renderable plan →
  active_count (post_statuses plan) < fuel →
  ∃ self' text, loop fuel self result = Some (self', Ok text).
Proof.
  intros Hne Hp Hwf Hr Hfuel. destruct fuel as [|n]; [lia|].
  eapply loop_returns_within; eauto. lia.
Qed.

End FlowRuns.

Section FlowDrafting.

Context {Agent LLM : Type}.
Variable agent_run : Agent → string → Agent * Result string.
Variable agent_state : Agent → AgentState.
Variable llm_ask : LLM → string → string → LLM * Result string.
Variable llm_ask_tool : LLM → string → string → LLM * Result (list ToolCall).
Variable format_text : Plan → string.
Variable list_text : gmap string Plan → option string → string.
Variable storage_text : string → Plan → string.
Variable post_prompt_text : string → option nat → Post → string.

Local Abbreviation Flow := (@Flow Agent LLM).
Local Abbreviation texec := (tool_execute format_text list_text).
Local Abbreviation initial_plan :=
  (_create_initial_plan llm_ask_tool format_text list_text).
Local Abbreviation tool_calls := (process_tool_calls format_text list_text).
Local Abbreviation run :=
  (execute agent_run agent_state llm_ask llm_ask_tool format_text list_text storage_text
     post_prompt_text).

Lemma tool_calls_none (self : Flow) (calls : list ToolCall) :
  no_planning_call calls → tool_calls self calls = None.
Proof.
  induction 1 as [|c calls Hc _ IH]; simpl; [done|].
  destruct Hc as [Hname|Hargs].
  - by rewrite decide_False.
  - case_decide; [by rewrite Hargs|done].
Qed.

Lemma tool_calls_accepted (self : Flow) (skipped rest : list ToolCall) (call : ToolCall)
    (args : Args) (tool1 : Tool) (out : ToolResult) :
  no_planning_call skipped →
  function_name call = "twitter_planning" → arguments call = Some args →
  texec self (set_plan_id args (active_plan_id self)) = (tool1, Ok out) →
  tool_calls self (skipped ++ call :: rest) = Some (with_tool self tool1, InitExit).
Proof.
  intros Hskip Hname Hargs Hexec.
  induction Hskip as [|c skipped Hc _ IH]; simpl.
  - rewrite decide_True by done. rewrite Hargs. by rewrite Hexec.
  - destruct Hc as [Hn|Ha].
    + by rewrite decide_False.
    + case_decide; [by rewrite Ha|done].
Qed.

(** X21: when the response of the language model holds a call of the
    planning tool whose arguments parse and the tool accepts it, [execute]
    does not reach the loop: [exit()] ends the process right after the
    call, with the tool as the call left it. *)
Theorem accepted_planning_call_exits_process (fuel : nat) (self : Flow)
    (input_text key : string) (llm1 : LLM) (skipped rest : list ToolCall)
    (call : ToolCall) (args : Args) (tool1 : Tool) (out : ToolResult) :
  primary_agent self = Some key → input_text ≠ "" →
  llm_ask_tool (llm self) planning_system_message (planning_user_message input_text)
    = (llm1, Ok (skipped ++ call :: rest)) →
  no_planning_call skipped →
  function_name call = "twitter_planning" → arguments call = Some args →
  texec (with_llm self llm1) (set_plan_id args (active_plan_id self)) = (tool1, Ok out) →
  run fuel self input_text = Some (with_tool (with_llm self llm1) tool1, ProcessExit).
Proof.
  intros Hprim Hinput Hask Hskip Hname Hargs Hexec.
  unfold execute. rewrite Hprim. rewrite decide_False by done.
  unfold _create_initial_plan. rewrite Hask.
  change (active_plan_id self) with (active_plan_id (with_llm self llm1)) in Hexec.
  by rewrite (tool_calls_accepted _ _ _ _ _ _ _ Hskip Hname Hargs Hexec).
Qed.

(** X22: when the response holds no usable call of the planning tool and no
    plan is stored under the flow's plan id, [_create_initial_plan] stores
    the default plan there: one post, draft, with an empty note, and the
    plan becomes the active one; the other plans are untouched. *)
Theorem default_plan_has_one_draft_post (self : Flow) (request : string) (llm1 : LLM)
    (calls : list ToolCall) :
  active_plan_id self ≠ "" →
  plans (twitter_planning_tool self) !! active_plan_id self = None →
  llm_ask_tool (llm self) planning_system_message (planning_user_message request)
    = (llm1, Ok calls) →
  no_planning_call calls →
  ∃ self1 plan post,
    initial_plan self request = (self1, InitDone) ∧
    plans (twitter_planning_tool self1) !! active_plan_id self = Some plan ∧
    posts plan = [post] ∧ post_statuses plan = ["draft"] ∧ post_notes plan = [""] ∧
    post !! "hashtags" = Some (VList ["#Announcement"; "#News"]) ∧
    _current_plan_id (twitter_planning_tool self1) = Some (active_plan_id self) ∧
    ∀ other, other ≠ active_plan_id self →
      plans (twitter_planning_tool self1) !! other
      = plans (twitter_planning_tool self) !! other.
Proof.
  intros Hne Hfresh Hask Hcalls.
  unfold _create_initial_plan. rewrite Hask.
  rewrite (tool_calls_none _ _ Hcalls).
  unfold tool_execute, TwitterPlanningTool.execute, default_plan_args.
  cbn [command arg_plan_id arg_title arg_posts].
  rewrite decide_True by done. unfold _create_plan.
  change (active_plan_id (with_llm self llm1)) with (active_plan_id self).
  change (twitter_planning_tool (with_llm self llm1)) with (twitter_planning_tool self).
  rewrite truthy_str_Some by done. rewrite Hfresh.
  rewrite truthy_str_Some by done.
  eexists _, _, _. split; [reflexivity|]. cbn [twitter_planning_tool with_tool plans].
  split; [apply lookup_insert_eq|]. cbn [posts post_statuses post_notes].
  split; [reflexivity|]. split; [reflexivity|]. split; [reflexivity|].
  split; [reflexivity|]. split; [reflexivity|].
  intros other Hother. by rewrite lookup_insert_ne.
Qed.

(** X23: a non-empty request on a flow whose plan id already names a stored
    plan fails when the response holds no usable call of the planning tool:
    the default plan is refused as a duplicate, [execute] returns the
    failure text, and no post of the stored plan is run. *)
Theorem request_on_existing_plan_fails (fuel : nat) (self : Flow)
    (request key : string) (llm1 : LLM) (calls : list ToolCall) (plan : Plan) :
  primary_agent self = Some key → request ≠ "" →
  active_plan_id self ≠ "" →
  plans (twitter_planning_tool self) !! active_plan_id self = Some plan →
  llm_ask_tool (llm self) planning_system_message (planning_user_message request)
    = (llm1, Ok calls) →
  no_planning_call calls →
  run fuel self request
  = Some (with_llm self llm1,
          Returned ("Execution failed: " +:+ str (AlreadyExists (active_plan_id self)))).
Proof.
  intros Hprim Hreq Hne Hp Hask Hcalls.
  unfold execute. rewrite Hprim. rewrite decide_False by done.
  unfold _create_initial_plan. rewrite Hask.
  rewrite (tool_calls_none _ _ Hcalls).
  unfold tool_execute, TwitterPlanningTool.execute, default_plan_args.
  cbn [command arg_plan_id arg_title arg_posts].
  rewrite decide_True by done. unfold _create_plan.
  change (active_plan_id (with_llm self llm1)) with (active_plan_id self).
  change (twitter_planning_tool (with_llm self llm1)) with (twitter_planning_tool self).
  rewrite truthy_str_Some by done. rewrite Hp.
  by destruct self.
Qed.

End FlowDrafting.

(** * Properties of the posting tool *)

Lemma twitter_execute_started (tw : Twitter.Twitter) text media_path restart :
  session_started tw → session_started (Twitter.execute tw text media_path restart).1.
Proof.
  intros Hst. unfold Twitter.execute. destruct restart.
  - destruct (Twitter._session tw) as [session|] eqn:Hs.
    + unfold Twitter.stop. rewrite (Hst _ Hs). simpl. by intros s [= <-].
    + simpl. by intros s [= <-].
  - assert (Hstart : ∀ s, Some (match Twitter._session tw with
                                 | Some session => session
                                 | None => Twitter.start Twitter.new_session
                                 end) = Some s → Twitter._started s = true).
    { intros s [= <-]. destruct (Twitter._session tw) as [session|] eqn:Hs; [|done].
      by apply Hst. }
    case_decide; [done|].
    by destruct (Twitter.post_tweet _ _ _).
Qed.

Lemma twitter_run_calls_started (calls : list Twitter.Call) (tw : Twitter.Twitter) :
  session_started tw → session_started (Twitter.run_calls calls tw).
Proof.
  revert tw. induction calls as [|[[text media_path] restart] calls IH]; intros tw Hst;
    [done|].
  simpl. apply IH. by apply twitter_execute_started.
Qed.

(** X24: after any sequence of calls on a new posting tool, whether they
    return or raise, the session of the tool, when there is one, has been
    started. *)
Theorem twitter_session_is_started (calls : list Twitter.Call) (s : Twitter._TwitterSession) :
  Twitter._session (Twitter.run_calls calls Twitter.new_twitter) = Some s →
  Twitter._started s = true.
Proof. apply twitter_run_calls_started. by intros s'. Qed.

(** X25: after any sequence of calls on a new posting tool, a call with a
    non-empty text and no restart returns the posted text with the fixed
    tweet id and URL; the media line is added when a media path is given,
    the empty path included. *)
Theorem twitter_post_succeeds (calls : list Twitter.Call) (text : string)
    (media_path : option string) :
  text ≠ "" →
  ∃ tw',
    Twitter.execute (Twitter.run_calls calls Twitter.new_twitter) text media_path false
    = (tw', Ok {| Twitter.output := Some (posted_text media_path);
                  Twitter.system := None |}).
Proof.
  intros Htext. unfold Twitter.execute. rewrite decide_False by done.
  pose proof (twitter_session_is_started calls) as Hst.
  destruct (Twitter._session _) as [session|].
  - unfold Twitter.post_tweet. rewrite (Hst session eq_refl). by eexists.
  - by eexists.
Qed.

(** X26: after any sequence of calls on a new posting tool, a call with the
    restart flag returns the restart message and a fresh started session;
    it posts nothing, whatever text it is given. *)
Theorem twitter_restart_posts_nothing (calls : list Twitter.Call) (text : string)
    (media_path : option string) :
  Twitter.execute (Twitter.run_calls calls Twitter.new_twitter) text media_path true
  = ({| Twitter._session := Some (Twitter.start Twitter.new_session) |},
     Ok {| Twitter.output := None;
           Twitter.system := Some "Twitter tool has been restarted." |}).
Proof.
  unfold Twitter.execute.
  pose proof (twitter_session_is_started calls) as Hst.
  destruct (Twitter._session _) as [session|]; [|done].
  unfold Twitter.stop. by rewrite (Hst session eq_refl).
Qed.

(** X27: after any sequence of calls on a new posting tool, a call with the
    empty text and no restart raises, and the tool has a started session
    afterwards: the session is set up before the text is looked at. *)
Theorem twitter_empty_text_is_rejected (calls : list Twitter.Call)
    (media_path : option string) :
  ∃ tw' s,
    Twitter.execute (Twitter.run_calls calls Twitter.new_twitter) "" media_path false
    = (tw', Raise (ToolError "Tweet text cannot be empty.")) ∧
    Twitter._session tw' = Some s ∧ Twitter._started s = true.
Proof.
  unfold Twitter.execute. rewrite decide_True by done.
  pose proof (twitter_session_is_started calls) as Hst.
  destruct (Twitter._session _) as [session|].
  - eexists _, _. split; [done|]. split; [done|]. by apply Hst.
  - eexists _, _. split; [done|]. done.
Qed.

(** * The further properties at concrete inputs *)

Lemma active_pointer_names_stored_plan_witness :
  ∃ plan, plans noted_tool !! "p" = Some plan.
Proof.
  apply (active_pointer_names_stored_plan plain_format plain_list [demo_create; demo_note]).
  reflexivity.
Defined.

Lemma stored_statuses_are_valid_witness : "posted" ∈ valid_statuses.
Proof.
  apply (stored_statuses_are_valid plain_format plain_list [demo_create; demo_note]
           "p" noted_plan 0); reflexivity.
Defined.

Lemma stored_plans_are_named_and_nonempty_witness :
  plan_id noted_plan = "p" ∧ "p" ≠ "" ∧ title noted_plan ≠ "" ∧ posts noted_plan ≠ [].
Proof.
  apply (stored_plans_are_named_and_nonempty plain_format plain_list
           [demo_create; demo_note] "p" noted_plan).
  reflexivity.
Defined.

Lemma rejected_command_changes_nothing_witness :
  (TwitterPlanningTool.execute plain_format plain_list demo_tool demo_create).1 = demo_tool.
Proof.
  apply (rejected_command_changes_nothing plain_format plain_list [demo_create] demo_create
           (AlreadyExists "p")); [reflexivity|discriminate|discriminate].
Defined.

Lemma create_then_get_renders_new_plan_witness :
  _get_plan plain_format demo_tool None = (demo_tool, Ok {| output := "Launch" |}).
Proof.
  apply (create_then_get_renders_new_plan plain_format new_tool "p" "Launch"
           [demo_post "one"; demo_post "two"]); done.
Defined.

Lemma create_then_delete_restores_plans_witness :
  plans (_delete_plan demo_tool (Some "p")).1 = plans new_tool ∧
  _current_plan_id (_delete_plan demo_tool (Some "p")).1 = None.
Proof.
  apply (create_then_delete_restores_plans plain_format new_tool "p" "Launch"
           [demo_post "one"; demo_post "two"]); done.
Defined.

Lemma set_active_then_get_renders_plan_witness :
  _get_plan plain_format (_set_active_plan plain_format demo_tool (Some "p")).1 None
  = ((_set_active_plan plain_format demo_tool (Some "p")).1, Ok {| output := "Launch" |}).
Proof.
  destruct (set_active_then_get_renders_plan plain_format demo_tool "p" demo_plan)
    as (_ & _ & _ & Hget); [done|reflexivity|].
  apply Hget. apply (bool_decide_unpack (renderable demo_plan)). vm_compute. reflexivity.
Defined.

Lemma mark_post_rejects_index_out_of_range_witness :
  _mark_post plain_format demo_tool (Some "p") (Some (-1)%Z) (Some "posted") None
  = (demo_tool, Raise (IndexOutOfRange (-1) 2)) ∧
  _mark_post plain_format demo_tool (Some "p") (Some 2%Z) (Some "posted") None
  = (demo_tool, Raise (IndexOutOfRange 2 2)).
Proof.
  split.
  - apply (mark_post_rejects_index_out_of_range plain_format demo_tool "p" demo_plan
             (-1)%Z); [done|reflexivity|left; lia].
  - apply (mark_post_rejects_index_out_of_range plain_format demo_tool "p" demo_plan
             2%Z); [done|reflexivity|right; simpl; lia].
Defined.

Lemma mark_post_rejects_unknown_status_witness :
  _mark_post plain_format demo_tool (Some "p") (Some 0%Z) (Some "done") (Some "sent")
  = (demo_tool, Raise (InvalidStatus "done")).
Proof.
  apply (mark_post_rejects_unknown_status plain_format demo_tool "p" demo_plan 0%Z "done");
    [done|reflexivity|simpl; lia|done|].
  unfold valid_statuses. rewrite !not_elem_of_cons.
  repeat split; try done. apply not_elem_of_nil.
Defined.

Lemma mark_post_sets_one_status_witness :
  ∃ plan',
    (_mark_post plain_format demo_tool (Some "p") (Some 1%Z) (Some "failed")
       (Some "oops")).1 = store_plan demo_tool "p" plan' ∧
    (_mark_post plain_format demo_tool (Some "p") (Some 1%Z) (Some "failed")
       (Some "oops")).2 = Ok {| output := "Post 1 updated in plan 'p'.

Launch" |} ∧
    post_statuses plan' !! 1 = Some "failed" ∧
    post_statuses plan' !! 0 = Some "draft".
Proof.
  destruct (mark_post_sets_one_status plain_format plain_list [demo_create] "p" demo_plan
              1 "failed" (Some "oops"))
    as (plan' & Hstate & Hresult & Hone & Hothers & _);
    [reflexivity|simpl; lia|unfold valid_statuses; repeat constructor|].
  exists plan'. split; [exact Hstate|]. split; [reflexivity|]. split; [exact Hone|].
  rewrite (Hothers 0) by done. reflexivity.
Defined.

Lemma update_with_same_posts_changes_nothing_witness :
  (_update_plan plain_format noted_tool (Some "p") None
     (Some (PostList [demo_post "one"; demo_post "two"]))).1 = noted_tool.
Proof.
  apply (update_with_same_posts_changes_nothing plain_format plain_list
           [demo_create; demo_note] "p" noted_plan).
  reflexivity.
Defined.

Lemma update_without_posts_keeps_items_witness :
  ∃ plan',
    plans (_update_plan plain_format noted_tool (Some "p") (Some "Relaunch")
             (Some (PostList []))).1 !! "p" = Some plan' ∧
    posts plan' = posts noted_plan ∧ post_statuses plan' = ["posted"; "draft"] ∧
    post_notes plan' = ["sent"; ""].
Proof.
  apply (update_without_posts_keeps_items plain_format noted_tool "p" noted_plan
           (Some "Relaunch") (Some (PostList []))); [done|reflexivity|by right].
Defined.

Lemma get_executor_returns_registered_agent_witness :
  ∃ key a,
    get_executor (demo_flow demo_tool worker) (Some "image") = Some key ∧
    agents (demo_flow demo_tool worker) !! key = Some a.
Proof.
  apply (get_executor_returns_registered_agent (demo_flow demo_tool worker) (Some "image")
           "manus").
  reflexivity.
Defined.

Lemma selection_is_first_active_post_witness :
  ∃ plan post,
    plans noted_tool !! "p" = Some plan ∧ posts plan !! 1 = Some post ∧
    status_at (post_statuses plan) 1 ∈ get_active_statuses ∧
    status_at (post_statuses plan) 0 ∉ get_active_statuses.
Proof.
  destruct (selection_is_first_active_post plain_format plain_list
              (demo_flow noted_tool worker)
              (_get_current_post_info plain_format plain_list
                 (demo_flow noted_tool worker)).1
              1 (info_of (demo_post "two")))
    as (plan & post & Hp & Hpost & _ & Hact & Hbefore); [reflexivity|].
  exists plan, post. split; [exact Hp|]. split; [exact Hpost|]. split; [exact Hact|].
  apply Hbefore. lia.
Defined.

Lemma no_selection_means_no_active_post_witness :
  (status_at (post_statuses done_plan) 0 ∉ get_active_statuses) ∧
  (status_at (post_statuses done_plan) 1 ∉ get_active_statuses).
Proof.
  destruct (no_selection_means_no_active_post plain_format plain_list
              (demo_flow done_tool worker) (demo_flow done_tool worker) done_plan)
    as [_ Hnone];
    [done|reflexivity|reflexivity|].
  split; apply Hnone; simpl; lia.
Defined.

Lemma selected_post_is_marked_ready_witness :
  ∃ self1 plan1,
    _get_current_post_info plain_format plain_list (demo_flow unmarked_tool worker)
      = (self1, Some (0, info_of (demo_post "one"))) ∧
    plans (twitter_planning_tool self1) !! "p" = Some plan1 ∧
    post_statuses plan1 !! 0 = Some "ready".
Proof.
  destruct (selected_post_is_marked_ready plain_format plain_list
              (demo_flow unmarked_tool worker)
              (_get_current_post_info plain_format plain_list
                 (demo_flow unmarked_tool worker)).1
              unmarked_plan 0 (info_of (demo_post "one")))
    as (plan1 & Hp1 & Hready & _); [reflexivity|reflexivity|].
  eexists _, plan1. split; [reflexivity|]. split; [exact Hp1|exact Hready].
Defined.


Lemma storage_text_pads_status_and_note_lists_witness :
  ∃ plan1,
    plans (twitter_planning_tool
             (_generate_plan_text_from_storage plain_storage
                (demo_flow short_tool worker)).1) !! "p" = Some plan1 ∧
    length (posts short_plan) ≤ length (post_notes plan1).
Proof.
  destruct (storage_text_pads_status_and_note_lists plain_storage
              (demo_flow short_tool worker) short_plan)
    as (plan1 & Hp1 & _ & _ & _ & Hnotes & _); [reflexivity|].
  exists plan1. split; [exact Hp1|exact Hnotes].
Defined.

Lemma loop_terminates_on_aligned_plan_witness :
  ∃ self' text, demo_loop 3 (demo_flow demo_tool breaker) "" = Some (self', Ok text).
Proof.
  apply (loop_terminates_on_aligned_plan demo_run state demo_ask plain_format plain_list
           plain_storage plain_prompt 3 (demo_flow demo_tool breaker) "" demo_plan);
    [done|reflexivity|split; reflexivity
    |apply (bool_decide_unpack (renderable demo_plan)); vm_compute; reflexivity
    |vm_compute; lia].
Defined.

Lemma accepted_planning_call_exits_process_witness :
  ∃ self', calling_execute 5 (demo_flow new_tool worker) "launch" = Some (self', ProcessExit).
Proof.
  eexists.
  eapply (accepted_planning_call_exits_process demo_run state demo_ask calling_ask_tool
            plain_format plain_list plain_storage plain_prompt
            5 (demo_flow new_tool worker) "launch" "manus" 1
            [ {| function_name := "search"; arguments := None |} ] []
            {| function_name := "twitter_planning"; arguments := Some demo_create |}
            demo_create);
    [reflexivity|done|reflexivity| |reflexivity|reflexivity|reflexivity].
  constructor; [by left|constructor].
Defined.

Lemma default_plan_has_one_draft_post_witness :
  ∃ self1 plan post,
    demo_initial_plan (demo_flow new_tool worker) "launch" = (self1, InitDone) ∧
    plans (twitter_planning_tool self1) !! "p" = Some plan ∧
    posts plan = [post] ∧ post_statuses plan = ["draft"].
Proof.
  destruct (default_plan_has_one_draft_post demo_ask_tool plain_format plain_list
              (demo_flow new_tool worker) "launch" 1 [])
    as (self1 & plan & post & Hinit & Hp & Hposts & Hst & _);
    [done|reflexivity|reflexivity|constructor|].
  exists self1, plan, post. split; [exact Hinit|]. split; [exact Hp|].
  split; [exact Hposts|exact Hst].
Defined.

Lemma request_on_existing_plan_fails_witness :
  snd <$> demo_execute 5 (demo_flow demo_tool worker) "launch"
  = Some (Returned
      "Execution failed: A plan with ID 'p' already exists. Use 'update' to modify existing plans.").
Proof.
  unfold demo_execute.
  rewrite (request_on_existing_plan_fails demo_run state demo_ask demo_ask_tool
             plain_format plain_list plain_storage plain_prompt
             5 (demo_flow demo_tool worker) "launch" "manus" 1 [] demo_plan);
    [reflexivity|reflexivity|done|done|reflexivity|reflexivity|constructor].
Defined.

Lemma twitter_session_is_started_witness :
  Twitter._started (Twitter.start Twitter.new_session) = true.
Proof.
  apply (twitter_session_is_started [("", None, false); ("hello", Some "", true)]).
  reflexivity.
Defined.

Lemma twitter_post_succeeds_witness :
  ∃ tw',
    Twitter.execute Twitter.new_twitter "hello" (Some "") false
    = (tw', Ok {| Twitter.output := Some "Tweet posted successfully!
Tweet ID: 1234567890123456789
URL: https://twitter.com/username/status/1234567890123456789
Media was included with this tweet.";
                  Twitter.system := None |}).
Proof. apply (twitter_post_succeeds [] "hello" (Some "")). done. Defined.

Lemma executor_success_posts_item_witness :
  ∃ self2 plan2,
    demo_loop 2 (demo_flow demo_tool worker) "" = demo_loop 1 self2 "posted
" ∧
    agents self2 !! "manus" = Some worker ∧
    plans (twitter_planning_tool self2) !! "p" = Some plan2 ∧
    post_statuses plan2 !! 0 = Some "posted" ∧
    post_statuses plan2 !! 1 = Some "draft".
Proof.
  destruct (executor_success_posts_item demo_run state demo_ask plain_format plain_list
              plain_storage plain_prompt 1 (demo_flow demo_tool worker) "" demo_plan 0
              (demo_post "one") "manus" worker worker "posted")
    as (self2 & plan2 & Hloop & Hagent & Hp & Hposted & Hothers & _);
    [done|reflexivity|split; reflexivity
    |apply (bool_decide_unpack (renderable demo_plan)); vm_compute; reflexivity
    |reflexivity|reflexivity|reflexivity|reflexivity|].
  exists self2, plan2. split; [exact Hloop|]. split; [exact Hagent|].
  split; [exact Hp|]. split; [exact Hposted|].
  rewrite (Hothers 1) by done. reflexivity.
Defined.

Lemma create_stores_plan_before_rendering_witness :
  _create_plan plain_format new_tool (Some "p") (Some "Launch") (Some (PostList [bare_post]))
  = (bare_tool, Raise (KeyError "'content'")).
Proof.
  apply (create_stores_plan_before_rendering plain_format new_tool "p" "Launch"
           [bare_post]); [done|reflexivity|done|].
  intros Hall. apply Forall_cons in Hall as [[x Hx] _]. vm_compute in Hx. discriminate.
Defined.

(** * A whole run of the loop *)

Section FlowCompletion.

Context {Agent LLM : Type}.
Variable agent_run : Agent → string → Agent * Result string.
Variable agent_state : Agent → AgentState.
Variable llm_ask : LLM → string → string → LLM * Result string.
Variable format_text : Plan → string.
Variable list_text : gmap string Plan → option string → string.
Variable storage_text : string → Plan → string.
Variable post_prompt_text : string → option nat → Post → string.

Local Abbreviation Flow := (@Flow Agent LLM).
Local Abbreviation plan_text := (_get_plan_text format_text list_text storage_text).
Local Abbreviation execute_post :=
  (_execute_post agent_run format_text list_text storage_text post_prompt_text).
Local Abbreviation finalize :=
  (_finalize_plan agent_run llm_ask format_text list_text storage_text).
Local Abbreviation finished := (executor_finished agent_state).
Local Abbreviation loop :=
  (execute_loop agent_run agent_state llm_ask format_text list_text storage_text
     post_prompt_text).

Lemma active_count_none (ss : list string) :
  (∀ j, j < length ss → status_at ss j ∉ get_active_statuses) → active_count ss = 0.
Proof.
  intros Hnone.
  assert (Hall : Forall (λ s, s ∉ get_active_statuses) ss).
  { apply Forall_lookup. intros j s Hj.
    pose proof (Hnone j (lookup_lt_Some _ _ _ Hj)) as Hs.
    unfold status_at in Hs. by rewrite Hj in Hs. }
  clear Hnone. unfold active_count. induction Hall as [|s ss Hs _ IH]; [done|].
  rewrite filter_cons. by rewrite decide_False.
Qed.

(** Finalizing leaves a stored plan as it is. *)
Lemma finalize_keeps_plan (self : Flow) (plan : Plan) :
  active_plan_id self ≠ "" →
  plans (twitter_planning_tool self) !! active_plan_id self = Some plan →
  renderable plan →
  plans (twitter_planning_tool (finalize self).1) !! active_plan_id self = Some plan.
Proof.
  intros Hne Hp Hr. unfold _finalize_plan.
  rewrite (plan_text_present format_text list_text storage_text self plan Hne Hp Hr).
  destruct (llm_ask _ _ _) as [llm1 [response|e]]; [done|].
  pose proof (run_agent_frame agent_run (with_llm self llm1) (primary_agent self)
                (summary_prompt (format_text plan))) as (Htool & _).
  destruct (run_agent _ _ _ _) as [self2 [summary|e2]]; simpl in Htool; simpl;
    by rewrite Htool.
Qed.

Lemma settled_step (n : nat) (ss ss' : list string) (k : nat) (st : string) :
  k < length ss → status_at ss k ∈ get_active_statuses →
  st = value POSTED ∨ st = value FAILED →
  settled n (<[k := st]> ss) ss' → settled n ss ss'.
Proof.
  intros Hk Hact Hst [Hkeep Hdone].
  assert (Hst' : st ∉ get_active_statuses).
  { unfold get_active_statuses.
    destruct Hst as [-> | ->]; simpl;
      rewrite !not_elem_of_cons; repeat split; try done; apply not_elem_of_nil. }
  assert (Hother : ∀ j, j ≠ k → status_at (<[k := st]> ss) j = status_at ss j).
  { intros j Hj. unfold status_at. by rewrite list_lookup_insert_ne. }
  assert (Hat : status_at (<[k := st]> ss) k = st).
  { unfold status_at. by rewrite list_lookup_insert_eq. }
  split.
  - intros j Hj Hidle. destruct (decide (j = k)) as [->|Hjk]; [done|].
    rewrite (Hkeep j Hj) by (by rewrite Hother). by apply list_lookup_insert_ne.
  - intros j Hj Hactive. destruct (decide (j = k)) as [->|Hjk].
    + rewrite (Hkeep k Hj) by (by rewrite Hat).
      rewrite list_lookup_insert_eq by done. destruct Hst as [-> | ->]; eauto.
    + apply (Hdone j Hj). by rewrite Hother.
Qed.

Lemma loop_settles_within (n : nat) :
  (∀ a, agent_state a ≠ FINISHED) →
  ∀ (self : Flow) (result : string) (plan : Plan),
    active_plan_id self ≠ "" →
    plans (twitter_planning_tool self) !! active_plan_id self = Some plan →
    plan_wf plan → renderable plan → active_count (post_statuses plan) ≤ n →
    ∃ self' text plan',
      loop (S n) self result = Some (self', Ok text) ∧
      plans (twitter_planning_tool self') !! active_plan_id self = Some plan' ∧
      posts plan' = posts plan ∧
      active_count (post_statuses plan') = 0 ∧
      settled (length (posts plan)) (post_statuses plan) (post_statuses plan').
Proof.
  intros Hnever.
  assert (Hlive : ∀ (self : Flow) executor, finished self executor = false).
  { intros self [k|]; [|done]. unfold executor_finished.
    destruct (agents self !! k) as [a|]; [|done]. by apply bool_decide_eq_false. }
  assert (Hend : ∀ (self : Flow) result plan,
            active_plan_id self ≠ "" →
            plans (twitter_planning_tool self) !! active_plan_id self = Some plan →
            plan_wf plan → renderable plan →
            find_active (post_statuses plan) 0 (posts plan) = None →
            ∀ m, ∃ self' text plan',
              loop (S m) self result = Some (self', Ok text) ∧
              plans (twitter_planning_tool self') !! active_plan_id self = Some plan' ∧
              posts plan' = posts plan ∧
              active_count (post_statuses plan') = 0 ∧
              settled (length (posts plan)) (post_statuses plan) (post_statuses plan')).
  { intros self result plan Hne Hp [Hs Hn] Hr Hfind m.
    cbn [execute_loop]. unfold _get_current_post_info.
    rewrite decide_False by done. rewrite Hp, Hfind.
    pose proof (finalize_keeps_plan (with_index self None) plan Hne Hp Hr) as Hkeep.
    destruct (finalize _) as [self2 summary]. simpl in Hkeep.
    assert (Hnone : ∀ j, j < length (posts plan) →
              status_at (post_statuses plan) j ∉ get_active_statuses).
    { intros j Hj. apply (find_active_None _ _ _ Hfind). lia. }
    exists self2, (result +:+ summary), plan. split; [done|]. split; [done|].
    split; [done|]. split.
    - apply active_count_none. intros j Hj. apply Hnone. lia.
    - split; [done|]. intros j Hj Hactive. by destruct (Hnone j Hj). }
  induction n as [|n IH]; intros self result plan Hne Hp Hwf Hr Hcount.
  - destruct (find_active (post_statuses plan) 0 (posts plan)) as [[k post]|] eqn:Hfind;
      [|by apply Hend].
    destruct (find_active_Some _ _ _ _ _ Hfind) as (_ & Hlook & Hact & _).
    apply lookup_lt_Some in Hlook. destruct Hwf as [Hs Hn].
    assert (active_count (<[k := "posted"]> (post_statuses plan))
            < active_count (post_statuses plan)); [|lia].
    apply active_count_settled; [lia|done|].
    unfold get_active_statuses. simpl.
    rewrite !not_elem_of_cons. repeat split; try done. apply not_elem_of_nil.
  - destruct (find_active (post_statuses plan) 0 (posts plan)) as [[k post]|] eqn:Hfind;
      [|by apply Hend].
    destruct (find_active_Some _ _ _ _ _ Hfind) as (_ & Hlook & Hact & _).
    apply lookup_lt_Some in Hlook. rewrite Nat.sub_0_r in Hlook.
    cbn [execute_loop].
    rewrite (current_info_wf format_text list_text self plan k post Hne Hp Hwf Hr Hfind).
    set (plan1 := marked plan k (value READY) None).
    set (self1 := with_index (with_tool self _) (Some k)).
    assert (Hwf1 : plan_wf plan1) by (by apply marked_wf).
    assert (Hr1 : renderable plan1) by (by apply marked_renderable).
    assert (Hp1 : plans (twitter_planning_tool self1) !! active_plan_id self1
                  = Some plan1) by (simpl; apply lookup_insert_eq).
    assert (Hk1 : k < length (posts plan1)) by (unfold plan1; by rewrite marked_posts).
    destruct (execute_post_aligned agent_run format_text list_text storage_text
                post_prompt_text self1 plan1 k (info_of post)
                (get_executor self1 (post_type_of (info_of post)))
                Hne Hp1 Hwf1 Hr1 Hk1 eq_refl)
      as (self2 & text & st & notes & Hpost & Hact2 & Hp2 & Hst & Hsettled).
    rewrite Hpost, Hlive.
    change (active_plan_id self1) with (active_plan_id self) in Hact2, Hp2.
    assert (Hss : post_statuses (marked plan1 k st notes) = <[k := st]> (post_statuses plan)).
    { rewrite marked_statuses. unfold plan1. rewrite marked_statuses.
      by rewrite list_insert_insert_eq. }
    assert (Hps : posts (marked plan1 k st notes) = posts plan).
    { unfold plan1. by rewrite !marked_posts. }
    destruct Hwf as [Hs Hn].
    destruct (IH self2 (result +:+ text +:+ "
") (marked plan1 k st notes))
      as (self' & text' & plan' & Hloop & Hp' & Hposts & Hzero & Hrest).
    + by rewrite Hact2.
    + by rewrite Hact2.
    + by apply marked_wf.
    + by apply marked_renderable.
    + rewrite Hss.
      assert (active_count (<[k := st]> (post_statuses plan))
              < active_count (post_statuses plan)); [|lia].
      apply active_count_settled; [lia|done|done].
    + exists self', text', plan'. split; [done|].
      rewrite Hact2 in Hp'. split; [done|]. split; [by rewrite Hposts|].
      split; [done|].
      rewrite Hss, Hps in Hrest. apply (settled_step _ _ _ k st); [lia|done|done|done].
Qed.

(** X28: on an aligned plan whose posts all have a content key, when no
    agent ever reports the state FINISHED, the loop with more fuel than
    there are active posts returns normally and leaves the plan settled:
    the posts are as before, a post that was posted or failed keeps its
    status, and a post that was draft or ready is posted or failed, so no
    post is draft or ready any more. *)
Theorem run_settles_every_active_post (fuel : nat) (self : Flow) (result : string)
    (plan : Plan) :
  (∀ a, agent_state a ≠ FINISHED) →
  active_plan_id self ≠ "" →
  plans (twitter_planning_tool self) !! active_plan_id self = Some plan →
  plan_wf plan →
  renderable plan →
  active_count (post_statuses plan) < fuel →
  ∃ self' text plan',
    loop fuel self result = Some (self', Ok text) ∧
    plans (twitter_planning_tool self') !! active_plan_id self = Some plan' ∧
    posts plan' = posts plan ∧
    active_count (post_statuses plan') = 0 ∧
    (∀ j, j < length (posts plan) →
          status_at (post_statuses plan) j ∉ get_active_statuses →
          post_statuses plan' !! j = post_statuses plan !! j) ∧
    (∀ j, j < length (posts plan) →
          status_at (post_statuses plan) j ∈ get_active_statuses →
          post_statuses plan' !! j = Some (value POSTED) ∨
          post_statuses plan' !! j = Some (value FAILED)).
Proof.
  intros Hnever Hne Hp Hwf Hr Hfuel. destruct fuel as [|n]; [lia|].
  destruct (loop_settles_within n Hnever self result plan Hne Hp Hwf Hr)
    as (self' & text & plan' & Hloop & Hp' & Hposts & Hzero & Hkeep & Hdone); [lia|].
  exists self', text, plan'. done.
Qed.

End FlowCompletion.

Lemma run_settles_every_active_post_witness :
  ∃ self' text plan',
    execute_loop demo_run (λ _, IDLE) demo_ask plain_format plain_list plain_storage
      plain_prompt 3 (demo_flow noted_tool breaker) "" = Some (self', Ok text) ∧
    plans (twitter_planning_tool self') !! "p" = Some plan' ∧
    posts plan' = posts noted_plan ∧
    post_statuses plan' !! 0 = Some "posted" ∧
    (post_statuses plan' !! 1 = Some "posted" ∨ post_statuses plan' !! 1 = Some "failed").
Proof.
  destruct (run_settles_every_active_post demo_run (λ _, IDLE) demo_ask plain_format
              plain_list plain_storage plain_prompt 3 (demo_flow noted_tool breaker) ""
              noted_plan)
    as (self' & text & plan' & Hloop & Hp' & Hposts & _ & Hkeep & Hdone);
    [done|done|reflexivity|split; reflexivity
    |apply (bool_decide_unpack (renderable noted_plan)); vm_compute; reflexivity
    |vm_compute; lia|].
  exists self', text, plan'. split; [exact Hloop|]. split; [exact Hp'|].
  split; [exact Hposts|]. split.
  - rewrite (Hkeep 0); [reflexivity|simpl; lia|].
    unfold status_at, get_active_statuses. simpl.
    rewrite !not_elem_of_cons. repeat split; try done. apply not_elem_of_nil.
  - apply (Hdone 1); [simpl; lia|].
    unfold status_at, get_active_statuses. simpl. apply list_elem_of_here.
Defined.
